(** * submod: shifting the time codes of .srt / .vtt subtitle files

    A shallow embedding of [submod.go] and the verification of its
    time-code arithmetic, its line rewriting, its streaming converters and
    its output-file naming.

    Go strings are byte sequences, indexed and sliced by byte; they are
    modelled by [string] (a list of 8-bit [ascii]).  [time.Duration] and
    [int] are 64-bit signed integers, modelled by [Z] with the wrap-around
    written out.  [float64] is IEEE 754 binary64, modelled by the standard
    library's [spec_float] at precision 53 and maximal exponent 1024, so
    that every rounding of the program is the rounding of the model. *)

From Stdlib Require Import ZArith List Bool Ascii String DecimalString Lia.
From Stdlib Require Import Floats.SpecFloat.
Import ListNotations.

Local Open Scope string_scope.
Local Open Scope Z_scope.

(** ** Outcomes of a run

    [log.Fatal] prints a diagnostic and exits with status 1; a slice
    expression out of range panics at run time.  [Beyond] marks an input
    on which a library call leaves the fragment modelled below (see
    [strconv.ParseFloat] and [fmt.Sprintf]); no theorem draws a
    conclusion from it. *)

Inductive diagnostic : Type :=
| ErrHours
| ErrMinutes
| ErrSeconds
| ErrFilenameSeconds.

Inductive result (A : Type) : Type :=
| Ok (a : A)
| Fatal (d : diagnostic)
| Panic
| Beyond.

Arguments Ok {A} a.
Arguments Fatal {A} d.
Arguments Panic {A}.
Arguments Beyond {A}.

Definition bind {A B : Type} (c : result A) (k : A -> result B) : result B :=
  match c with
  | Ok a => k a
  | Fatal d => Fatal d
  | Panic => Panic
  | Beyond => Beyond
  end.

Notation "x <- c ;; k" := (bind c (fun x => k))
  (at level 61, c at next level, right associativity).

(** ** Byte strings *)

Definition is_digit (c : ascii) : bool :=
  ((48 <=? nat_of_ascii c) && (nat_of_ascii c <=? 57))%nat.

Definition is_sign (c : ascii) : bool := (c =? "+")%char || (c =? "-")%char.

Definition digit_val (c : ascii) : Z := Z.of_nat (nat_of_ascii c - 48).

Definition digit_char (d : Z) : ascii := ascii_of_nat (48 + Z.to_nat d).

(** A letter of the Latin alphabet or an underscore. *)
Definition is_letter (c : ascii) : bool :=
  let n := nat_of_ascii c in
  (((65 <=? n) && (n <=? 90)) || ((97 <=? n) && (n <=? 122)) || (n =? 95))%nat.

(** The slice expression [s[lo:hi]]: it panics unless [lo <= hi <= len(s)]. *)
Definition slice (s : string) (lo hi : nat) : result string :=
  if ((lo <=? hi) && (hi <=? String.length s))%nat
  then Ok (substring lo (hi - lo) s)
  else Panic.

(** The slice expression [s[lo:]]. *)
Definition slice_from (s : string) (lo : nat) : result string :=
  slice s lo (String.length s).

Fixpoint repeat_char (c : ascii) (n : nat) : string :=
  match n with
  | O => ""
  | S n' => String c (repeat_char c n')
  end.

Fixpoint all_chars (p : ascii -> bool) (s : string) : bool :=
  match s with
  | "" => true
  | String c s' => p c && all_chars p s'
  end.

Fixpoint any_char (p : ascii -> bool) (s : string) : bool :=
  match s with
  | "" => false
  | String c s' => p c || any_char p s'
  end.

(** ** 64-bit integers *)

Module int64.

Definition min : Z := - 2 ^ 63.
Definition max : Z := 2 ^ 63 - 1.

Definition in_range (z : Z) : bool := (min <=? z) && (z <=? max).

(** Two's-complement wrap-around of the mathematical result. *)
Definition wrap (z : Z) : Z := (z + 2 ^ 63) mod 2 ^ 64 - 2 ^ 63.

Definition add (a b : Z) : Z := wrap (a + b).
Definition mul (a b : Z) : Z := wrap (a * b).

(** Go's [/] and [%] on integers truncate toward zero. *)
Definition quo (a b : Z) : Z := wrap (Z.quot a b).
Definition rem (a b : Z) : Z := Z.rem a b.

End int64.

(** ** float64 *)

Module float64.

Definition t : Type := spec_float.

Definition prec : Z := 53.
Definition emax : Z := 1024.

Definition mul : t -> t -> t := SFmul prec emax.
Definition add : t -> t -> t := SFadd prec emax.
Definition div : t -> t -> t := SFdiv prec emax.

(** [x >= y]; false as soon as one side is NaN. *)
Definition geb (x y : t) : bool := SFleb y x.

(** The conversion [float64(z)] of an integer, rounded to nearest even. *)
Definition of_int (z : Z) : t := binary_normalize prec emax z 0 false.

(** The binary64 number nearest to [n / d] (ties to even), with sign [s]. *)
Definition of_ratio (s : bool) (n : Z) (d : positive) : t :=
  match n with
  | Zpos _ =>
      let '(mz, ez, lz) := SFdiv_core_binary prec emax n 0 (Zpos d) 0 in
      binary_round_aux prec emax s mz ez lz
  | _ => S754_zero s
  end.

(** The conversion [int64(f)]: the fraction is discarded (truncation
    toward zero).  When the value does not fit, Go leaves the result to
    the implementation; amd64 yields the minimal integer, which is what
    is written here. *)
Definition to_int64 (f : t) : Z :=
  match f with
  | S754_zero _ => 0
  | S754_finite s m e =>
      let mag := match e with
                 | Zneg p => Z.shiftr (Zpos m) (Zpos p)
                 | _ => Z.shiftl (Zpos m) e
                 end in
      let v := if s then - mag else mag in
      if int64.in_range v then v else int64.min
  | _ => int64.min
  end.

Definition is_finite (f : t) : bool :=
  match f with
  | S754_zero _ | S754_finite _ _ _ => true
  | _ => false
  end.

End float64.

(** ** package time *)

Module time.

(** A [Duration] counts nanoseconds in an [int64]. *)
Definition Millisecond : Z := 1000000.
Definition Minute : Z := 60000000000.
Definition Hour : Z := 3600000000000.

End time.

(** ** package strconv *)

Module strconv.

Fixpoint digits_val (acc : Z) (s : string) : option Z :=
  match s with
  | "" => Some acc
  | String c s' =>
      if is_digit c then digits_val (10 * acc + digit_val c) s' else None
  end.

Definition unsigned (s : string) : option Z :=
  match s with
  | "" => None
  | _ => digits_val 0 s
  end.

(** [Atoi]: an optional sign and one or more decimal digits; a value
    outside [int] is a range error.  [None] stands for [err != nil]. *)
Definition Atoi (s : string) : option Z :=
  let r := match s with
           | String "+" s' => unsigned s'
           | String "-" s' => option_map Z.opp (unsigned s')
           | _ => unsigned s
           end in
  match r with
  | Some z => if int64.in_range z then Some z else None
  | None => None
  end.

(** Reads a maximal run of digits: the value accumulated, how many
    digits were read, and what follows them. *)
Fixpoint read_digits (acc : Z) (n : nat) (s : string) : Z * nat * string :=
  match s with
  | String c s' =>
      if is_digit c then read_digits (10 * acc + digit_val c) (S n) s'
      else (acc, n, s)
  | "" => (acc, n, s)
  end.

(** An unsigned decimal without exponent, [digits [. digits]] with at
    least one digit: its digits read as one integer and the number of
    them after the point. *)
Definition parse_decimal (s : string) : option (Z * nat) :=
  let '(ip, ni, r) := read_digits 0 0 s in
  match r with
  | "" => if (ni =? 0)%nat then None else Some (ip, O)
  | String "." r' =>
      let '(m, nf, r'') := read_digits ip 0 r' in
      match r'' with
      | "" => if (ni + nf =? 0)%nat then None else Some (m, nf)
      | _ => None
      end
  | _ => None
  end.

Inductive parsed : Type :=
| Value (f : float64.t)
| Error
| Unmodelled.

(** [ParseFloat(s, 64)] on decimal numbers without exponent: the result
    is the binary64 number nearest to the decimal (ties to even); an
    overflow to infinity is a range error.  A text with a letter or an
    underscore (an exponent, a hexadecimal number, digit separators,
    [inf], [nan]) is outside this model; every other malformed text is a
    syntax error. *)
Definition ParseFloat (s : string) : parsed :=
  if any_char is_letter s then Unmodelled
  else
    let '(neg, body) := match s with
                        | String "+" b => (false, b)
                        | String "-" b => (true, b)
                        | _ => (false, s)
                        end in
    match parse_decimal body with
    | None => Error
    | Some (m, nf) =>
        let f := float64.of_ratio neg m (Z.to_pos (10 ^ Z.of_nat nf)) in
        if float64.is_finite f then Value f else Error
    end.

End strconv.

(** [if err != nil { log.Fatal(...) }] after a call of [strconv]. *)
Definition or_fatal {A : Type} (d : diagnostic) (o : option A) : result A :=
  match o with
  | Some a => Ok a
  | None => Fatal d
  end.

Definition float_or_fatal (d : diagnostic) (p : strconv.parsed)
  : result float64.t :=
  match p with
  | strconv.Value f => Ok f
  | strconv.Error => Fatal d
  | strconv.Unmodelled => Beyond
  end.

(** ** package fmt *)

Module fmt.

(** The decimal digits of a natural number, most significant first. *)
Definition utoa (n : Z) : string :=
  NilZero.string_of_uint (N.to_uint (Z.to_N n)).

Definition pad_left (c : ascii) (w : nat) (s : string) : string :=
  repeat_char c (w - String.length s) ++ s.

(** A sign, then zeros up to the width, then the digits. *)
Definition zero_padded (w : nat) (neg : bool) (digits : string) : string :=
  if neg then String "-" (pad_left "0" (w - 1) digits)
  else pad_left "0" w digits.

(** The verb [%0wd]. *)
Definition verb_d (w : nat) (z : Z) : string :=
  zero_padded w (z <? 0) (utoa (Z.abs z)).

(** [num / den] rounded to the nearest integer, ties to even. *)
Definition round_half_even (num den : Z) : Z :=
  let q := num / den in
  let r := num mod den in
  match 2 * r ?= den with
  | Lt => q
  | Gt => q + 1
  | Eq => if Z.even q then q else q + 1
  end.

(** The digits of [m * 2^e] in fixed notation with [p] decimals: the
    exact binary value rounded to the nearest multiple of [10^-p], ties
    to even, as [strconv.FormatFloat(_, 'f', p, 64)] does. *)
Definition fixed (p : nat) (m : Z) (e : Z) : string :=
  let ten_p := 10 ^ Z.of_nat p in
  let scaled := match e with
                | Zneg k => round_half_even (m * ten_p) (2 ^ Zpos k)
                | _ => m * 2 ^ e * ten_p
                end in
  utoa (scaled / ten_p) ++
  match p with
  | O => ""
  | _ => String "." (pad_left "0" p (utoa (scaled mod ten_p)))
  end.

(** The verb [%0w.pf]; [w = 0] when the verb gives no width. *)
Definition verb_f (w p : nat) (f : float64.t) : string :=
  match f with
  | S754_nan => pad_left " " w "NaN"
  | S754_infinity s => pad_left " " w (if s then "-Inf" else "+Inf")
  | S754_zero s => zero_padded w s (fixed p 0 0)
  | S754_finite s m e => zero_padded w s (fixed p (Zpos m) e)
  end.

Inductive arg : Type :=
| Int (z : Z)
| Float (f : float64.t).

(** [Sprintf] for the verbs this program writes: [%02d], [%06.3f] and
    [%.2f], each consuming one operand of its kind.  Any other use of
    [%] in the format, a missing operand or an operand left over is
    outside this model ([None]). *)
Fixpoint Sprintf (format : string) (args : list arg) : option string :=
  match format with
  | "" => match args with [] => Some "" | _ => None end
  | String c rest =>
      if (c =? "%")%char then
        match rest, args with
        | String "0" (String "2" (String "d" rest')), Int z :: args' =>
            option_map (append (verb_d 2 z)) (Sprintf rest' args')
        | String "0" (String "6" (String "." (String "3" (String "f" rest')))),
          Float f :: args' =>
            option_map (append (verb_f 6 3 f)) (Sprintf rest' args')
        | String "." (String "2" (String "f" rest')), Float f :: args' =>
            option_map (append (verb_f 0 2 f)) (Sprintf rest' args')
        | _, _ => None
        end
      else option_map (String c) (Sprintf rest args)
  end.

End fmt.

Definition or_beyond {A : Type} (o : option A) : result A :=
  match o with
  | Some a => Ok a
  | None => Beyond
  end.

(** * The program *)

(** The text returned in place of a time that fell before the start. *)
Definition DELETED : string := String "(" (String "D" (String "E" (String "L"
  (String "E" (String "T" (String "E" (String "D" (String ")"
  (String (ascii_of_nat 10) ""))))))))).

Definition f1000 : float64.t := float64.of_int 1000.

(** Lines 326-330 of [process_time]: the shifted time, in nanoseconds. *)
Definition shifted_time (hrs mins : Z) (secs incr : float64.t) : Z :=
  let hr := int64.mul hrs time.Hour in
  let min := int64.mul mins time.Minute in
  let sec := int64.mul (float64.to_int64 (float64.mul secs f1000))
                       time.Millisecond in
  let delta := int64.mul (float64.to_int64 (float64.mul incr f1000))
                         time.Millisecond in
  int64.add (int64.add (int64.add hr min) sec) delta.

(** Lines 337-340 of [process_time]: the text of a time that is kept. *)
Definition render_time (new_time : Z) : result string :=
  let hrs := int64.quo new_time time.Hour in
  let mins := int64.quo (int64.rem new_time time.Hour) time.Minute in
  let secs := float64.div
                (float64.of_int
                   (int64.quo (int64.rem new_time time.Minute)
                              time.Millisecond))
                f1000 in
  or_beyond (fmt.Sprintf "%02d:%02d:%06.3f"
               [fmt.Int hrs; fmt.Int mins; fmt.Float secs]).

(** The three fields of a time string, as [process_time] reads them. *)
Definition parse_time (time_string : string)
  : result (Z * Z * float64.t) :=
  h <- slice time_string 0 2 ;;
  hrs <- or_fatal ErrHours (strconv.Atoi h) ;;
  m <- slice time_string 3 5 ;;
  mins <- or_fatal ErrMinutes (strconv.Atoi m) ;;
  s <- slice time_string 6 12 ;;
  secs <- float_or_fatal ErrSeconds (strconv.ParseFloat s) ;;
  Ok (hrs, mins, secs).

Definition process_time (time_string : string) (incr : float64.t)
  : result string :=
  f <- parse_time time_string ;;
  let '(hrs, mins, secs) := f in
  let new_time := shifted_time hrs mins secs incr in
  if new_time >=? 0 then render_time new_time
  else Ok DELETED.

Definition process_line (line : string) (seconds : float64.t)
  : result string :=
  start <- slice line 0 12 ;;
  start <- process_time start seconds ;;
  end_ <- slice line 17 29 ;;
  end_ <- process_time end_ seconds ;;
  if (start =? DELETED)%string then
    if (end_ =? DELETED)%string then Ok DELETED
    else Ok ("00:00:00.000 --> " ++ end_)
  else Ok (start ++ " --> " ++ end_).

(** ** package regexp

    The four patterns of the program are sequences of one-byte classes,
    some of them repeated with [+]; that is the fragment modelled.  Every
    pattern byte is ASCII, so matching byte by byte agrees with Go's
    matching rune by rune. *)

Module regexp.

Inductive atom : Type :=
| One (p : ascii -> bool)       (* a class, once *)
| Many (p : ascii -> bool).     (* a class followed by [+] *)

Definition t : Type := list atom.

(** The match that Go prefers among those starting at the first byte
    of [s] (a repetition takes as much as it can before giving back),
    as the text left after it. *)
Fixpoint match_here (re : t) (s : string) {struct s} : option string :=
  match re with
  | [] => Some s
  | One p :: re' =>
      match s with
      | String c s' => if p c then match_here re' s' else None
      | "" => None
      end
  | Many p :: re' =>
      match s with
      | String c s' =>
          if p c then
            match match_here re s' with
            | Some r => Some r
            | None => match_here re' s'
            end
          else None
      | "" => None
      end
  end.

(** The leftmost match in [s], whose first byte has index [i]. *)
Fixpoint find_from (re : t) (s : string) (i : nat) : option (nat * nat) :=
  match match_here re s with
  | Some r => Some (i, i + (String.length s - String.length r))%nat
  | None =>
      match s with
      | "" => None
      | String _ s' => find_from re s' (S i)
      end
  end.

Definition FindStringIndex (re : t) (s : string) : option (nat * nat) :=
  find_from re s 0.

Definition MatchString (re : t) (s : string) : bool :=
  match FindStringIndex re s with
  | Some _ => true
  | None => false
  end.

Definition FindString (re : t) (s : string) : string :=
  match FindStringIndex re s with
  | Some (i, j) => substring i (j - i) s
  | None => ""
  end.

Definition byte (c : ascii) : atom := One (Ascii.eqb c).
Definition digit : atom := One is_digit.
Definition digits : atom := Many is_digit.
Definition sign : atom := One is_sign.

Fixpoint literal (s : string) : t :=
  match s with
  | "" => []
  | String c s' => byte c :: literal s'
  end.

(** What a pattern denotes: the texts it matches as a whole. *)
Inductive matches : t -> string -> Prop :=
| matches_nil : matches [] ""
| matches_one p re c w :
    p c = true -> matches re w -> matches (One p :: re) (String c w)
| matches_last p re c w :
    p c = true -> matches re w -> matches (Many p :: re) (String c w)
| matches_more p re c w :
    p c = true -> matches (Many p :: re) w ->
    matches (Many p :: re) (String c w).

End regexp.

(** ** package strings *)

Module strings.

(** [Replace(s, old, new, n)] for one-byte [old] and [new] and
    [n >= 0]: the first [n] occurrences are replaced. *)
Fixpoint Replace (s : string) (old new : ascii) (n : nat) : string :=
  match s with
  | "" => ""
  | String c s' =>
      match n with
      | O => s
      | S n' =>
          if (c =? old)%char then String new (Replace s' old new n')
          else String c (Replace s' old new n)
      end
  end.

End strings.

(** ** The patterns of the program *)

(** [\{[+-]\d+\.\d+_Sec\}_] *)
Definition proc : regexp.t :=
  ([regexp.byte "{"; regexp.sign; regexp.digits; regexp.byte ".";
    regexp.digits] ++ regexp.literal "_Sec}_")%list.

(** [[+-]\d+\.\d+] *)
Definition re_number : regexp.t :=
  [regexp.sign; regexp.digits; regexp.byte "."; regexp.digits].

(** [\d\d:\d\d:\d\d<sep>\d\d\d] *)
Definition re_time (sep : ascii) : regexp.t :=
  [regexp.digit; regexp.digit; regexp.byte ":";
   regexp.digit; regexp.digit; regexp.byte ":";
   regexp.digit; regexp.digit; regexp.byte sep;
   regexp.digit; regexp.digit; regexp.digit].

Definition re_vtt : regexp.t := re_time ".".
Definition re_srt : regexp.t := re_time ",".

(** ** name_output *)

Definition fzero : float64.t := float64.of_int 0.

Definition name_output (inputfile : string) (seconds : float64.t)
  : result string :=
  let processed := regexp.MatchString proc inputfile in
  p <- (if processed then
          let number := regexp.FindString re_number inputfile in
          incr <- float_or_fatal ErrFilenameSeconds
                    (strconv.ParseFloat number) ;;
          let incr := float64.add incr seconds in
          match regexp.FindStringIndex proc inputfile with
          | Some (_, stop) =>
              rest <- slice_from inputfile stop ;;
              Ok (incr, "{%.2f_Sec}_" ++ rest)
          | None => Panic
          end
        else Ok (seconds, "{%.2f_Sec}_" ++ inputfile)) ;;
  let '(incr, placeholder) := p in
  placeholder <- (if float64.geb incr fzero then
                    tail <- slice_from placeholder 1 ;;
                    Ok ("{+" ++ tail)
                  else Ok placeholder) ;;
  or_beyond (fmt.Sprintf placeholder [fmt.Float incr]).

(** ** convert_vtt and convert_srt

    The input file is given as the lines that the scanner delivers, in
    order; the output file is the text written to it so far. *)

Record conv : Type := mkconv {
  deleted_subs : Z;
  skip : bool;
  output : string
}.

Definition conv_init : conv := mkconv 0 false "".

Definition WriteString (st : conv) (s : string) : conv :=
  mkconv (deleted_subs st) (skip st) (output st ++ s).

Definition newline : string := String (ascii_of_nat 10) "".

(** One turn of the loop of [convert_vtt]; a line that is skipped
    ([continue]) leaves the output as it is. *)
Definition vtt_line (seconds : float64.t) (st : conv) (old_line : string)
  : result conv :=
  let time_line := regexp.MatchString re_vtt old_line in
  if time_line then
    new_line <- process_line old_line seconds ;;
    let st := if (new_line =? DELETED)%string
              then mkconv (int64.add (deleted_subs st) 1) true (output st)
              else st in
    Ok (WriteString st (new_line ++ newline))
  else if skip st then
    Ok (if (old_line =? "")%string
        then mkconv (deleted_subs st) false (output st)
        else st)
  else Ok (WriteString st (old_line ++ newline)).

(** One turn of the loop of [convert_srt]. *)
Definition srt_line (seconds : float64.t) (st : conv) (old_line : string)
  : result conv :=
  let time_line := regexp.MatchString re_srt old_line in
  if time_line then
    let new_line := strings.Replace old_line "," "." 2 in
    new_line <- process_line new_line seconds ;;
    if (new_line =? DELETED)%string then
      let st := mkconv (int64.add (deleted_subs st) 1) true (output st) in
      Ok (WriteString st (new_line ++ newline))
    else
      let new_line := strings.Replace new_line "." "," 2 in
      Ok (WriteString st (new_line ++ newline))
  else if skip st then
    Ok (if (old_line =? "")%string
        then mkconv (deleted_subs st) false (output st)
        else st)
  else Ok (WriteString st (old_line ++ newline)).

Fixpoint run_lines (step : conv -> string -> result conv)
  (st : conv) (lines : list string) : result conv :=
  match lines with
  | [] => Ok st
  | l :: lines' => st' <- step st l ;; run_lines step st' lines'
  end.

(** The number of deleted subtitles, with the text of the output file. *)
Definition convert_vtt (lines : list string) (seconds : float64.t)
  : result (Z * string) :=
  st <- run_lines (vtt_line seconds) conv_init lines ;;
  Ok (deleted_subs st, output st).

Definition convert_srt (lines : list string) (seconds : float64.t)
  : result (Z * string) :=
  st <- run_lines (srt_line seconds) conv_init lines ;;
  Ok (deleted_subs st, output st).

(** The text of a file made of the given lines, each ended by a line
    feed. *)
Fixpoint unlines (ls : list string) : string :=
  match ls with
  | [] => ""
  | l :: ls' => l ++ newline ++ unlines ls'
  end.

(** * Definitions used in the statements *)

(** ** Rendered times *)

(** What [render_time] writes, field by field: the operands of its
    [Sprintf], each under its verb. *)
Definition rendered (new_time : Z) : string :=
  fmt.verb_d 2 (int64.quo new_time time.Hour) ++ ":" ++
  fmt.verb_d 2 (int64.quo (int64.rem new_time time.Hour) time.Minute) ++ ":" ++
  fmt.verb_f 6 3
    (float64.div
       (float64.of_int
          (int64.quo (int64.rem new_time time.Minute) time.Millisecond))
       f1000).

(** The seconds of a kept time, as [render_time] writes them from a
    count [k] of milliseconds. *)
Definition seconds_text (k : Z) : string :=
  fmt.verb_f 6 3 (float64.div (float64.of_int k) f1000).

(** The decimal digits of [n], with zeros in front up to [w] bytes. *)
Definition digits_of (w : nat) (n : Z) : string :=
  fmt.pad_left "0" w (fmt.utoa n).

(** The time of day of a count of milliseconds, in the layout
    [HH:MM:SS.mmm]. *)
Definition time_text (ms : Z) : string :=
  digits_of 2 (ms / 3600000) ++ ":" ++
  digits_of 2 (ms / 60000 mod 60) ++ ":" ++
  digits_of 2 (ms / 1000 mod 60) ++ "." ++ digits_of 3 (ms mod 1000).

Definition two_digits (s : string) : bool :=
  match s with
  | String d1 (String d2 "") => is_digit d1 && is_digit d2
  | _ => false
  end.

Definition three_digits (s : string) : bool :=
  match s with
  | String d1 (String d2 (String d3 "")) =>
      is_digit d1 && is_digit d2 && is_digit d3
  | _ => false
  end.

(** The layout [HH:MM:SS.mmm]: twelve bytes, digits in 2-2-2-3. *)
Definition is_time_code (s : string) : bool :=
  two_digits (substring 0 2 s) && (substring 2 1 s =? ":")%string &&
  two_digits (substring 3 2 s) && (substring 5 1 s =? ":")%string &&
  two_digits (substring 6 2 s) && (substring 8 1 s =? ".")%string &&
  three_digits (substring 9 3 s) && (String.length s =? 12)%nat.

Definition has_colon (s : string) : bool := any_char (Ascii.eqb ":") s.

(** The start of a time-range line as [process_line] writes it: the
    rewritten start, or the zero time when the start was deleted. *)
Definition clamped (start : string) : string :=
  if (start =? DELETED)%string then "00:00:00.000" else start.

(** The integers [z], [z + 1], ..., [z + n - 1]. *)
Fixpoint upto (n : nat) (z : Z) : list Z :=
  match n with
  | O => []
  | S n' => z :: upto n' (z + 1)
  end.

(** ** Tags *)

(** A non-empty run of decimal digits. *)
Definition digit_run (a : string) : Prop :=
  a <> "" /\ all_chars is_digit a = true.

(** The texts of the form [{], a sign, digits, a point, digits, [_Sec}_]. *)
Definition is_tag (w : string) : Prop :=
  exists sg a b,
    is_sign sg = true /\ digit_run a /\ digit_run b /\
    w = String "{" (String sg (a ++ "." ++ b ++ "_Sec}_")).

Definition contains (P : string -> Prop) (s : string) : Prop :=
  exists pre w post, s = pre ++ w ++ post /\ P w.

(** The pattern with exactly two digits on each side of the point,
    [\{[+-]\d\d\.\d\d_Sec\}_], which is not the one of the program. *)
Definition tag_two_digits : regexp.t :=
  ([regexp.byte "{"; regexp.sign; regexp.digit; regexp.digit;
    regexp.byte "."; regexp.digit; regexp.digit]
   ++ regexp.literal "_Sec}_")%list.

Definition has_percent (s : string) : bool := any_char (Ascii.eqb "%") s.

Definition sign_bit (f : float64.t) : bool :=
  match f with
  | S754_zero s | S754_infinity s | S754_finite s _ _ => s
  | S754_nan => false
  end.

(** ** The count of milliseconds with rounding *)

(** The nearest integer to a binary64 number, halves away from zero
    (Go's [math.Round]); zero for an infinity or a NaN. *)
Definition round_nearest (f : float64.t) : Z :=
  match f with
  | S754_finite s m e =>
      let mag := match e with
                 | Zneg k => (2 * Zpos m + 2 ^ Zpos k) / (2 * 2 ^ Zpos k)
                 | _ => Zpos m * 2 ^ e
                 end in
      if s then - mag else mag
  | _ => 0
  end.

(** Following the words of the specification, for comparison with
    [shifted_time]: the shifted total in milliseconds,
    [hours*3,600,000 + minutes*60,000 + round(seconds*1000)
     + round(offsetSeconds*1000)]. *)
Definition spec_shifted_ms (hrs mins : Z) (secs offset : float64.t) : Z :=
  hrs * 3600000 + mins * 60000
  + round_nearest (float64.mul secs f1000)
  + round_nearest (float64.mul offset f1000).

(** ** Values of the examples *)

Definition minus5 : float64.t := float64.of_int (-5).
Definition minus3 : float64.t := float64.of_int (-3).
Definition half : float64.t := float64.of_ratio false 5 10.
Definition f2_5 : float64.t := float64.of_ratio false 25 10.
Definition secs1 : float64.t := float64.of_ratio false 1000 1000.
Definition secs2 : float64.t := float64.of_ratio false 2000 1000.
Definition secs4 : float64.t := float64.of_ratio false 4000 1000.
Definition secs5 : float64.t := float64.of_ratio false 5000 1000.
Definition secs1001 : float64.t := float64.of_ratio false 1001 1000.
Definition minus1_001 : float64.t := float64.of_ratio true 1001 1000.

(** The input of the second end-to-end example of the specification. *)
Definition example2 : list string :=
  ["1"; "00:00:02,000 --> 00:00:04,000"; "Hi"; "";
   "2"; "00:00:10,000 --> 00:00:12,000"; "Bye"; ""].

(** ** Further definitions used in the statements *)

(** The number that a run of decimal digits denotes, after [acc]. *)
Fixpoint dec (acc : Z) (s : string) : Z :=
  match s with
  | "" => acc
  | String c s' => dec (10 * acc + digit_val c) s'
  end.

(** A text at whose head no digit is read. *)
Definition no_digit_ahead (rest : string) : Prop :=
  match rest with
  | "" => True
  | String c _ => is_digit c = false
  end.

(** The fields of a time code: its hours, its minutes, and its seconds
    and milliseconds read as one count of milliseconds. *)
Definition hours_of (t : string) : Z := dec 0 (substring 0 2 t).
Definition minutes_of (t : string) : Z := dec 0 (substring 3 2 t).
Definition millis_of (t : string) : Z :=
  dec 0 (substring 6 2 t ++ substring 9 3 t).

(** The seconds of a time code as [process_time] holds them. *)
Definition seconds_of (t : string) : float64.t :=
  float64.of_ratio false (millis_of t) 1000.

(** The shifted time of a time code under an offset, in nanoseconds. *)
Definition shifted_of (t : string) (incr : float64.t) : Z :=
  shifted_time (hours_of t) (minutes_of t) (seconds_of t) incr.

(** What both loops do with a line that is not a time line. *)
Definition pass_or_skip (st : conv) (old_line : string) : conv :=
  if skip st then
    if (old_line =? "")%string
    then mkconv (deleted_subs st) false (output st)
    else st
  else WriteString st (old_line ++ newline).

(** A caption line of a block: neither a time line nor empty. *)
Definition caption (re : regexp.t) (l : string) : Prop :=
  regexp.MatchString re l = false /\ l <> "".

(** The number of time lines that the converter deletes. *)
Fixpoint deleted_lines (re : regexp.t) (prepare : string -> string)
  (seconds : float64.t) (lines : list string) : Z :=
  match lines with
  | [] => 0
  | l :: lines' =>
      (if regexp.MatchString re l then
         match process_line (prepare l) seconds with
         | Ok t => if (t =? DELETED)%string then 1 else 0
         | _ => 0
         end
       else 0) + deleted_lines re prepare seconds lines'
  end.

Definition to_period (l : string) : string := strings.Replace l "," "." 2.

(** A time-range line as the converters expect it: at least 29 bytes,
    a time code in bytes 0-11 and another in bytes 17-28. *)
Definition is_time_line (line : string) : bool :=
  (29 <=? String.length line)%nat &&
  is_time_code (substring 0 12 line) &&
  is_time_code (substring 17 12 line).

(** What [process_time] writes for a shifted time. *)
Definition written (ns : Z) : string :=
  if ns >=? 0 then time_text (ns / time.Millisecond) else DELETED.

(** What [process_line] writes for the two shifted times of a line. *)
Definition line_text (ns ne : Z) : string :=
  if ns <? 0 then
    if ne <? 0 then DELETED else "00:00:00.000 --> " ++ written ne
  else written ns ++ " --> " ++ written ne.

Definition to_comma (l : string) : string := strings.Replace l "." "," 2.

(** What both loops do with a time line for which [process_line]
    returned [t], when [out] is the text they write for it. *)
Definition time_step (st : conv) (t out : string) : conv :=
  WriteString
    (if (t =? DELETED)%string
     then mkconv (int64.add (deleted_subs st) 1) true (output st)
     else st)
    (out ++ newline).

(** The two dialects, and what each converter is made of. *)
Inductive dialect : Type := Vtt | Srt.

Definition pattern (d : dialect) : regexp.t :=
  match d with Vtt => re_vtt | Srt => re_srt end.

Definition convert (d : dialect)
  : list string -> float64.t -> result (Z * string) :=
  match d with Vtt => convert_vtt | Srt => convert_srt end.

Definition loop_body (d : dialect)
  : float64.t -> conv -> string -> result conv :=
  match d with Vtt => vtt_line | Srt => srt_line end.

(** The line handed to [process_line]. *)
Definition prepared (d : dialect) (l : string) : string :=
  match d with Vtt => l | Srt => to_period l end.

(** The line written for a kept time line. *)
Definition finished (d : dialect) (t : string) : string :=
  match d with Vtt => t | Srt => to_comma t end.

(** The decimal separator of the other dialect. *)
Definition foreign_separator (d : dialect) : ascii :=
  match d with Vtt => "," | Srt => "." end%char.

Fixpoint count_byte (c : ascii) (s : string) : nat :=
  match s with
  | "" => O
  | String x s' => ((if (x =? c)%char then 1 else 0) + count_byte c s')%nat
  end.


(** The number that [name_output] writes in a tag for an offset, with
    its sign. *)
Definition tag_number (offset : float64.t) : string :=
  (if float64.geb offset fzero then "+" else "") ++ fmt.verb_f 0 2 offset.

(** The tag that [name_output] writes for an offset. *)
Definition tag_of (offset : float64.t) : string :=
  (if float64.geb offset fzero then "{+" else "{")
  ++ fmt.verb_f 0 2 offset ++ "_Sec}_".

(** The decimal separator of a dialect. *)
Definition decimal_separator (d : dialect) : ascii :=
  match d with Vtt => "." | Srt => "," end%char.

(** The layout of a time code whose decimal separator is [sep]. *)
Definition is_time_code_of (sep : ascii) (s : string) : bool :=
  two_digits (substring 0 2 s) && (substring 2 1 s =? ":")%string &&
  two_digits (substring 3 2 s) && (substring 5 1 s =? ":")%string &&
  two_digits (substring 6 2 s) && (substring 8 1 s =? String sep "")%string &&
  three_digits (substring 9 3 s) && (String.length s =? 12)%nat.

(** * Facts about strings and slices *)

Lemma append_empty_r (s : string) : s ++ "" = s.
Proof.
  induction s as [|c s IH]; simpl; [reflexivity | now rewrite IH].
Qed.

Lemma append_assoc (a b c : string) : (a ++ b) ++ c = a ++ b ++ c.
Proof.
  induction a as [|x a IH]; simpl; [reflexivity | now rewrite IH].
Qed.

Lemma length_append (a b : string) :
  String.length (a ++ b) = (String.length a + String.length b)%nat.
Proof.
  induction a as [|x a IH]; simpl; [reflexivity | now rewrite IH].
Qed.

Lemma any_char_append (p : ascii -> bool) (a b : string) :
  any_char p (a ++ b) = any_char p a || any_char p b.
Proof.
  induction a as [|x a IH]; simpl; [reflexivity|].
  rewrite IH. now rewrite orb_assoc.
Qed.

Lemma substring_append_l (a b : string) :
  forall n m, (n + m <= String.length a)%nat ->
  substring n m (a ++ b) = substring n m a.
Proof.
  induction a as [|x a IH]; intros n m H; simpl in H.
  - assert (n = 0%nat /\ m = 0%nat) as [-> ->] by lia.
    destruct b; reflexivity.
  - destruct n as [|n]; destruct m as [|m]; simpl; try reflexivity.
    + f_equal. apply IH. simpl. lia.
    + apply IH. lia.
    + apply IH. lia.
Qed.

Lemma substring_substring (s : string) :
  forall n m k, (n + m <= k)%nat ->
  substring n m (substring 0 k s) = substring n m s.
Proof.
  induction s as [|x s IH]; intros n m k H.
  - destruct k; destruct n; destruct m; reflexivity.
  - destruct k as [|k].
    + assert (n = 0%nat /\ m = 0%nat) as [-> ->] by lia. reflexivity.
    + destruct n as [|n]; destruct m as [|m]; simpl; try reflexivity.
      * f_equal. apply IH. simpl. lia.
      * apply IH. lia.
      * apply IH. lia.
Qed.

Lemma length_substring (s : string) :
  forall n m, (n + m <= String.length s)%nat ->
  String.length (substring n m s) = m.
Proof.
  induction s as [|x s IH]; intros n m H; simpl in H.
  - assert (n = 0%nat /\ m = 0%nat) as [-> ->] by lia. reflexivity.
  - destruct n as [|n]; destruct m as [|m]; simpl; try reflexivity.
    + f_equal. apply IH. simpl. lia.
    + apply IH. lia.
    + apply IH. lia.
Qed.

Lemma slice_ok (s : string) (lo hi : nat) :
  (lo <= hi)%nat -> (hi <= String.length s)%nat ->
  slice s lo hi = Ok (substring lo (hi - lo) s).
Proof.
  intros H1 H2. unfold slice.
  apply Nat.leb_le in H1. apply Nat.leb_le in H2.
  now rewrite H1, H2.
Qed.

Lemma slice_short (s : string) (lo hi : nat) :
  (String.length s < hi)%nat -> slice s lo hi = Panic.
Proof.
  intros H. unfold slice.
  apply Nat.leb_gt in H. rewrite H.
  now rewrite andb_false_r.
Qed.

Lemma slice_inv (s : string) (lo hi : nat) (t : string) :
  slice s lo hi = Ok t ->
  (hi <= String.length s)%nat /\ t = substring lo (hi - lo) s.
Proof.
  unfold slice.
  destruct (lo <=? hi)%nat; simpl; [|discriminate].
  destruct (hi <=? String.length s)%nat eqn:E; [|discriminate].
  intros [= <-]. apply Nat.leb_le in E. now split.
Qed.

Lemma bind_ok_inv {A B : Type} (c : result A) (k : A -> result B) (b : B) :
  bind c k = Ok b -> exists a, c = Ok a /\ k a = Ok b.
Proof.
  destruct c; simpl; try discriminate.
  intros H. now exists a.
Qed.

(** * process_time *)

Lemma Sprintf_time (hrs mins : Z) (secs : float64.t) :
  fmt.Sprintf "%02d:%02d:%06.3f" [fmt.Int hrs; fmt.Int mins; fmt.Float secs]
  = Some (fmt.verb_d 2 hrs ++ ":" ++ fmt.verb_d 2 mins ++ ":"
          ++ fmt.verb_f 6 3 secs).
Proof.
  cbn [fmt.Sprintf Ascii.eqb Bool.eqb option_map].
  now rewrite append_empty_r.
Qed.

Lemma render_time_ok (new_time : Z) :
  render_time new_time = Ok (rendered new_time).
Proof.
  unfold render_time. now rewrite Sprintf_time.
Qed.

Lemma rendered_has_colon (new_time : Z) : has_colon (rendered new_time) = true.
Proof.
  unfold has_colon, rendered.
  rewrite any_char_append. simpl. apply orb_true_r.
Qed.

Lemma rendered_not_DELETED (new_time : Z) : rendered new_time <> DELETED.
Proof.
  intros H. pose proof (rendered_has_colon new_time) as C.
  rewrite H in C. discriminate C.
Qed.

Lemma has_colon_append_l (a b : string) :
  has_colon a = true -> has_colon (a ++ b) = true.
Proof.
  unfold has_colon. intros H. now rewrite any_char_append, H.
Qed.

Lemma rendered_append_not_DELETED (new_time : Z) (tail : string) :
  rendered new_time ++ tail <> DELETED.
Proof.
  intros E.
  pose proof (has_colon_append_l _ tail (rendered_has_colon new_time)) as C.
  rewrite E in C. discriminate C.
Qed.

Lemma rendered_eqb_DELETED (new_time : Z) :
  (rendered new_time =? DELETED)%string = false.
Proof. apply String.eqb_neq, rendered_not_DELETED. Qed.

Lemma process_time_parsed (time_string : string) (incr : float64.t)
  (hrs mins : Z) (secs : float64.t) :
  parse_time time_string = Ok (hrs, mins, secs) ->
  process_time time_string incr =
    if shifted_time hrs mins secs incr >=? 0
    then Ok (rendered (shifted_time hrs mins secs incr))
    else Ok DELETED.
Proof.
  intros H. unfold process_time. rewrite H. simpl.
  now rewrite render_time_ok.
Qed.

Lemma process_time_kept (time_string : string) (incr : float64.t)
  (hrs mins : Z) (secs : float64.t) :
  parse_time time_string = Ok (hrs, mins, secs) ->
  0 <= shifted_time hrs mins secs incr ->
  process_time time_string incr =
    Ok (rendered (shifted_time hrs mins secs incr)).
Proof.
  intros H Hs. rewrite (process_time_parsed _ _ _ _ _ H).
  destruct (Z.geb_spec (shifted_time hrs mins secs incr) 0); [reflexivity|lia].
Qed.

Lemma process_time_dropped (time_string : string) (incr : float64.t)
  (hrs mins : Z) (secs : float64.t) :
  parse_time time_string = Ok (hrs, mins, secs) ->
  shifted_time hrs mins secs incr < 0 ->
  process_time time_string incr = Ok DELETED.
Proof.
  intros H Hs. rewrite (process_time_parsed _ _ _ _ _ H).
  destruct (Z.geb_spec (shifted_time hrs mins secs incr) 0); [lia|reflexivity].
Qed.

(** A time string either is rewritten or stops the run; it is rewritten
    exactly when its three fields are read. *)
Lemma process_time_ok_inv (time_string : string) (incr : float64.t)
  (text : string) :
  process_time time_string incr = Ok text ->
  exists hrs mins secs, parse_time time_string = Ok (hrs, mins, secs).
Proof.
  unfold process_time. intros H.
  apply bind_ok_inv in H. destruct H as [[[hrs mins] secs] [H _]].
  now exists hrs, mins, secs.
Qed.

(** * process_line *)

Lemma process_line_long (line : string) (seconds : float64.t) :
  (29 <= String.length line)%nat ->
  process_line line seconds =
    (start <- process_time (substring 0 12 line) seconds ;;
     end_ <- process_time (substring 17 12 line) seconds ;;
     if (start =? DELETED)%string then
       if (end_ =? DELETED)%string then Ok DELETED
       else Ok ("00:00:00.000 --> " ++ end_)
     else Ok (start ++ " --> " ++ end_)).
Proof.
  intros H. unfold process_line.
  rewrite (slice_ok line 0 12) by lia.
  rewrite (slice_ok line 17 29) by lia.
  reflexivity.
Qed.

Lemma process_line_ok_length (line : string) (seconds : float64.t)
  (text : string) :
  process_line line seconds = Ok text -> (29 <= String.length line)%nat.
Proof.
  unfold process_line. intros H.
  apply bind_ok_inv in H. destruct H as [s [_ H]].
  apply bind_ok_inv in H. destruct H as [s' [_ H]].
  apply bind_ok_inv in H. destruct H as [e [H _]].
  apply slice_inv in H. tauto.
Qed.

(** C1.  The policy of [process_line] on a time-range line whose two
    time codes are read: when both shifted times are negative the result
    is the deletion sentinel alone; when only the shifted start is
    negative the result is [00:00:00.000], the separator and the shifted
    end as rendered; when neither is negative the result is the rendered
    shifted start, the separator and the rendered shifted end. *)
Theorem process_line_policy (line : string) (seconds : float64.t)
  (hs ms : Z) (ss : float64.t) (he me : Z) (se : float64.t) :
  (29 <= String.length line)%nat ->
  parse_time (substring 0 12 line) = Ok (hs, ms, ss) ->
  parse_time (substring 17 12 line) = Ok (he, me, se) ->
  (shifted_time hs ms ss seconds < 0 ->
   shifted_time he me se seconds < 0 ->
   process_line line seconds = Ok DELETED) /\
  (shifted_time hs ms ss seconds < 0 ->
   0 <= shifted_time he me se seconds ->
   process_line line seconds =
     Ok ("00:00:00.000 --> " ++ rendered (shifted_time he me se seconds))) /\
  (0 <= shifted_time hs ms ss seconds ->
   0 <= shifted_time he me se seconds ->
   process_line line seconds =
     Ok (rendered (shifted_time hs ms ss seconds) ++ " --> "
         ++ rendered (shifted_time he me se seconds))).
Proof.
  intros L Ps Pe.
  rewrite (process_line_long _ _ L).
  repeat split; intros Hs He.
  - rewrite (process_time_dropped _ _ _ _ _ Ps Hs).
    rewrite (process_time_dropped _ _ _ _ _ Pe He).
    reflexivity.
  - rewrite (process_time_dropped _ _ _ _ _ Ps Hs).
    rewrite (process_time_kept _ _ _ _ _ Pe He).
    cbn [bind]. rewrite String.eqb_refl, rendered_eqb_DELETED.
    reflexivity.
  - rewrite (process_time_kept _ _ _ _ _ Ps Hs).
    rewrite (process_time_kept _ _ _ _ _ Pe He).
    cbn [bind]. rewrite rendered_eqb_DELETED.
    reflexivity.
Qed.

Lemma process_line_policy_witness :
  process_line "00:00:02.000 --> 00:00:04.000" minus5 = Ok DELETED /\
  process_line "00:00:02.000 --> 00:00:04.000" minus3 =
    Ok ("00:00:00.000 --> " ++ rendered (shifted_time 0 0 secs4 minus3)) /\
  process_line "00:00:02.000 --> 00:00:04.000" fzero =
    Ok (rendered (shifted_time 0 0 secs2 fzero) ++ " --> "
        ++ rendered (shifted_time 0 0 secs4 fzero)).
Proof.
  assert (L : (29 <= String.length "00:00:02.000 --> 00:00:04.000")%nat)
    by (simpl; lia).
  split; [|split].
  - apply (proj1 (process_line_policy _ minus5 0 0 secs2 0 0 secs4
                    L eq_refl eq_refl));
      vm_compute; reflexivity.
  - apply (proj1 (proj2 (process_line_policy _ minus3 0 0 secs2 0 0 secs4
                           L eq_refl eq_refl)));
      vm_compute; congruence.
  - apply (proj2 (proj2 (process_line_policy _ fzero 0 0 secs2 0 0 secs4
                           L eq_refl eq_refl)));
      vm_compute; congruence.
Defined.

(** * The converters on one line *)

Lemma vtt_line_time (seconds : float64.t) (st : conv) (old_line : string)
  (new_line : string) :
  regexp.MatchString re_vtt old_line = true ->
  process_line old_line seconds = Ok new_line ->
  new_line <> DELETED ->
  vtt_line seconds st old_line = Ok (WriteString st (new_line ++ newline)).
Proof.
  intros M P N. unfold vtt_line. rewrite M, P. cbn [bind].
  apply String.eqb_neq in N. rewrite N. reflexivity.
Qed.

Lemma process_line_bare_time (seconds : float64.t) :
  process_line "00:00:00.000" seconds = Panic.
Proof.
  unfold process_line.
  rewrite (slice_ok "00:00:00.000" 0 12) by (simpl; lia).
  cbn [bind].
  rewrite (process_time_parsed (substring 0 (12 - 0) "00:00:00.000")
             seconds 0 0 (S754_zero false) eq_refl).
  rewrite (slice_short "00:00:00.000" 17 29) by (simpl; lia).
  destruct (shifted_time 0 0 (S754_zero false) seconds >=? 0); reflexivity.
Qed.

(** C8.  [process_line] yields a line only on an input of at least 29
    bytes; the 12-byte line [00:00:00.000] matches the time pattern of
    the .vtt dialect, is shorter than 29 bytes, and on it [process_line]
    panics on a slice whatever the offset, so that [convert_vtt] neither
    writes output nor stops with a diagnostic: it panics. *)
Theorem process_line_short_line :
  (forall line seconds text,
     process_line line seconds = Ok text ->
     (29 <= String.length line)%nat) /\
  regexp.MatchString re_vtt "00:00:00.000" = true /\
  (String.length "00:00:00.000" < 29)%nat /\
  (forall seconds,
     slice "00:00:00.000" 17 29 = Panic /\
     process_line "00:00:00.000" seconds = Panic /\
     convert_vtt ["00:00:00.000"] seconds = Panic).
Proof.
  split; [exact process_line_ok_length|].
  split; [reflexivity|].
  split; [simpl; lia|].
  intros seconds.
  split; [reflexivity|]. split; [apply process_line_bare_time|].
  unfold convert_vtt. cbn [run_lines]. unfold vtt_line.
  replace (regexp.MatchString re_vtt "00:00:00.000") with true by reflexivity.
  rewrite process_line_bare_time. reflexivity.
Qed.

Lemma process_line_short_line_witness :
  (29 <= String.length "00:00:01.913 --> 00:00:04.328")%nat.
Proof.
  apply (proj1 process_line_short_line
           "00:00:01.913 --> 00:00:04.328" fzero
           "00:00:01.913 --> 00:00:04.328").
  vm_compute. reflexivity.
Defined.

(** C9.  On a time-range line whose two time codes are read, when the
    shifted end is negative and the shifted start is not, [process_line]
    returns the rendered start, the separator and the sentinel text with
    its line feed; [convert_vtt] then writes that line (and its own line
    feed) to the output, leaves the count of deleted subtitles as it was
    and does not switch to skipping. *)
Theorem process_line_end_only_deleted (line : string) (seconds : float64.t)
  (hs ms : Z) (ss : float64.t) (he me : Z) (se : float64.t) :
  (29 <= String.length line)%nat ->
  parse_time (substring 0 12 line) = Ok (hs, ms, ss) ->
  parse_time (substring 17 12 line) = Ok (he, me, se) ->
  0 <= shifted_time hs ms ss seconds ->
  shifted_time he me se seconds < 0 ->
  process_line line seconds =
    Ok (rendered (shifted_time hs ms ss seconds) ++ " --> " ++ DELETED) /\
  forall st,
    regexp.MatchString re_vtt line = true ->
    exists st',
      vtt_line seconds st line = Ok st' /\
      output st' =
        output st ++ (rendered (shifted_time hs ms ss seconds) ++ " --> "
                      ++ DELETED) ++ newline /\
      deleted_subs st' = deleted_subs st /\
      skip st' = skip st.
Proof.
  intros L Ps Pe Hs He.
  assert (P : process_line line seconds =
              Ok (rendered (shifted_time hs ms ss seconds) ++ " --> "
                  ++ DELETED)).
  { rewrite (process_line_long _ _ L).
    rewrite (process_time_kept _ _ _ _ _ Ps Hs).
    rewrite (process_time_dropped _ _ _ _ _ Pe He).
    cbn [bind]. rewrite rendered_eqb_DELETED. reflexivity. }
  split; [exact P|].
  intros st M.
  eexists. split.
  - apply (vtt_line_time _ _ _ _ M P).
    apply rendered_append_not_DELETED.
  - unfold WriteString. cbn [output deleted_subs skip].
    split; [reflexivity|]. split; reflexivity.
Qed.

Lemma process_line_end_only_deleted_witness :
  process_line "00:00:05.000 --> 00:00:01.000" minus3 =
    Ok (rendered (shifted_time 0 0 secs5 minus3) ++ " --> " ++ DELETED).
Proof.
  apply (process_line_end_only_deleted
           "00:00:05.000 --> 00:00:01.000" minus3 0 0 secs5 0 0 secs1).
  - simpl; lia.
  - reflexivity.
  - reflexivity.
  - vm_compute; congruence.
  - vm_compute; reflexivity.
Defined.

(** C10.  On a line longer than 29 bytes for which [process_line]
    yields a line other than the sentinel, that line is made of the
    rewritten bytes 0-11 (or the zero time in their place), the
    separator and the rewritten bytes 17-28 only: it is the line yielded
    for the first 29 bytes alone, whatever follows them. *)
Theorem process_line_discards_tail (line : string) (seconds : float64.t)
  (text : string) :
  (29 < String.length line)%nat ->
  process_line line seconds = Ok text ->
  text <> DELETED ->
  process_line (substring 0 29 line) seconds = Ok text /\
  exists start end_,
    process_time (substring 0 12 line) seconds = Ok start /\
    process_time (substring 17 12 line) seconds = Ok end_ /\
    text = clamped start ++ " --> " ++ end_.
Proof.
  intros L P N.
  assert (L29 : (29 <= String.length (substring 0 29 line))%nat).
  { rewrite length_substring; simpl; lia. }
  rewrite (process_line_long _ _ L29).
  rewrite !substring_substring by lia.
  rewrite process_line_long in P by lia.
  split; [exact P|].
  apply bind_ok_inv in P. destruct P as [start [Hs P]].
  apply bind_ok_inv in P. destruct P as [end_ [He P]].
  exists start, end_. split; [exact Hs|]. split; [exact He|].
  unfold clamped.
  destruct (start =? DELETED)%string.
  - destruct (end_ =? DELETED)%string.
    + injection P as P. now symmetry in P.
    + now injection P as <-.
  - now injection P as <-.
Qed.

Lemma process_line_discards_tail_witness :
  process_line (substring 0 29 "00:00:00.243 --> 00:00:02.110 line:0%")
    fzero = Ok "00:00:00.243 --> 00:00:02.110".
Proof.
  apply (proj1 (process_line_discards_tail
                  "00:00:00.243 --> 00:00:02.110 line:0%" fzero
                  "00:00:00.243 --> 00:00:02.110"
                  ltac:(simpl; lia) eq_refl ltac:(discriminate))).
Defined.

(** * The converters on the examples *)

(** C2, as the claim states it, fails: on the second example the output
    of [convert_srt] is not the five lines [1], [2],
    [00:00:05,000 --> 00:00:07,000], [Bye] and the empty line. *)
Lemma convert_srt_example2_not_as_claimed :
  convert_srt example2 minus5 <>
    Ok (1, unlines ["1"; "2"; "00:00:05,000 --> 00:00:07,000"; "Bye"; ""]).
Proof.
  vm_compute. discriminate.
Qed.

(** C2, amended.  With offset -5 on the second example, [convert_srt]
    writes the lines [1], [(DELETED)], an empty line, [2],
    [00:00:05,000 --> 00:00:07,000], [Bye] and an empty line, and
    returns the count 1: the deleted time-range line is replaced by the
    sentinel text, whose own line feed makes the empty line, while the
    caption [Hi] and its blank separator are suppressed. *)
Theorem convert_srt_example2 :
  convert_srt example2 minus5 =
    Ok (1, unlines ["1"; "(DELETED)"; ""; "2";
                    "00:00:05,000 --> 00:00:07,000"; "Bye"; ""]).
Proof.
  vm_compute. reflexivity.
Qed.

(** C3 fails on the code: with offset 0 the time code [00:00:01.001]
    comes back as [00:00:01.000], because [secs*1000] is
    1000.9999999999999 in binary64 and the conversion to an integer
    discards the fraction. *)
Theorem process_time_zero_offset_loses_a_millisecond :
  process_time "00:00:01.001" fzero = Ok "00:00:01.000".
Proof.
  vm_compute. reflexivity.
Qed.

(** C4 fails on the code: for the seconds field [01.001] and offset 0
    the program counts 1000 milliseconds (the product is truncated),
    where the formula with rounding gives 1001. *)
Theorem shifted_time_truncates :
  parse_time "00:00:01.001" = Ok (0, 0, secs1001) /\
  shifted_time 0 0 secs1001 fzero = 1000 * time.Millisecond /\
  spec_shifted_ms 0 0 secs1001 fzero = 1001.
Proof.
  vm_compute. repeat split.
Qed.

(** C5 fails on the code: the time code [00:00:01.000] shifted by the
    offset [-1.001], which is below -1 and makes the shifted total
    -1 millisecond, is not deleted but comes back as [00:00:00.000].
    The product [incr*1000] is -1000.9999999999999 in binary64, the
    conversion to an integer discards the fraction, and the test
    [new_time >= 0] sees the count 0. *)
Theorem process_time_keeps_a_negative_total :
  strconv.ParseFloat "-1.001" = strconv.Value minus1_001 /\
  parse_time "00:00:01.000" = Ok (0, 0, secs1) /\
  float64.geb minus1_001 (float64.of_int (-1)) = false /\
  spec_shifted_ms 0 0 secs1 minus1_001 = -1 /\
  shifted_time 0 0 secs1 minus1_001 = 0 /\
  process_time "00:00:01.000" minus1_001 = Ok "00:00:00.000".
Proof.
  vm_compute. repeat split.
Qed.

(** * name_output on the examples *)

(** C6 fails on the code: the bytes before the first tag are dropped
    from the new name, and the number is read from the leftmost signed
    decimal of the name, which need not be the one in the tag. *)
Theorem name_output_drops_prefix :
  name_output "a/{+2.50_Sec}_movie.srt" half = Ok "{+3.00_Sec}_movie.srt" /\
  name_output "ep-1.5_{+2.50_Sec}_movie.srt" half
    = Ok "{-1.00_Sec}_movie.srt".
Proof.
  vm_compute. split; reflexivity.
Qed.

(** The file-name example of the specification. *)
Lemma name_output_example :
  name_output "movie.srt" (float64.of_ratio false 25 10)
    = Ok "{+2.50_Sec}_movie.srt" /\
  name_output "{+2.50_Sec}_movie.srt" (float64.of_ratio true 5 10)
    = Ok "{+2.00_Sec}_movie.srt".
Proof.
  vm_compute. split; reflexivity.
Qed.

(** * Patterns *)

Lemma match_here_nil (s : string) : regexp.match_here [] s = Some s.
Proof. destruct s; reflexivity. Qed.

Lemma match_here_sound (s : string) :
  forall re r, regexp.match_here re s = Some r ->
  exists w, s = w ++ r /\ regexp.matches re w.
Proof.
  induction s as [|c s IH]; intros re r H.
  - destruct re as [|[p|p] re']; cbn in H; try discriminate.
    injection H as <-. exists "". split; [reflexivity | constructor].
  - destruct re as [|[p|p] re']; cbn [regexp.match_here] in H.
    + injection H as <-. exists "". split; [reflexivity | constructor].
    + destruct (p c) eqn:Pc; [|discriminate].
      destruct (IH _ _ H) as [w [-> M]].
      exists (String c w). split; [reflexivity | now constructor].
    + destruct (p c) eqn:Pc; [|discriminate].
      destruct (regexp.match_here (regexp.Many p :: re') s) as [r0|] eqn:E.
      * injection H as <-.
        destruct (IH _ _ E) as [w [-> M]].
        exists (String c w). split; [reflexivity|].
        now apply regexp.matches_more.
      * destruct (IH _ _ H) as [w [-> M]].
        exists (String c w). split; [reflexivity|].
        now apply regexp.matches_last.
Qed.

Lemma match_here_complete (re : regexp.t) (w : string) :
  regexp.matches re w ->
  forall post, exists r, regexp.match_here re (w ++ post) = Some r.
Proof.
  induction 1 as [|p re c w Pc M IH|p re c w Pc M IH|p re c w Pc M IH];
    intros post.
  - exists post. apply match_here_nil.
  - cbn [append regexp.match_here]. rewrite Pc. apply IH.
  - cbn [append regexp.match_here]. rewrite Pc.
    destruct (regexp.match_here (regexp.Many p :: re) (w ++ post)) as [r|].
    + now exists r.
    + apply IH.
  - cbn [append regexp.match_here]. rewrite Pc.
    destruct (IH post) as [r E]. rewrite E. now exists r.
Qed.

Lemma find_from_some (re : regexp.t) (s : string) :
  forall i span, regexp.find_from re s i = Some span ->
  contains (regexp.matches re) s.
Proof.
  induction s as [|c s IH]; intros i span H; cbn [regexp.find_from] in H.
  - destruct (regexp.match_here re "") as [r|] eqn:E; [|discriminate].
    destruct (match_here_sound _ _ _ E) as [w [Hw M]].
    exists "", w, r. now split.
  - destruct (regexp.match_here re (String c s)) as [r|] eqn:E.
    + destruct (match_here_sound _ _ _ E) as [w [Hw M]].
      exists "", w, r. now split.
    + destruct (IH _ _ H) as [pre [w [post [-> M]]]].
      exists (String c pre), w, post. now split.
Qed.

Lemma find_from_none (re : regexp.t) (s : string) :
  forall i, regexp.find_from re s i = None ->
  ~ contains (regexp.matches re) s.
Proof.
  induction s as [|c s IH]; intros i H [pre [w [post [E M]]]];
    cbn [regexp.find_from] in H.
  - destruct pre; [|discriminate]. simpl in E.
    destruct (match_here_complete _ _ M post) as [r Hr].
    rewrite <- E in Hr. now rewrite Hr in H.
  - destruct (regexp.match_here re (String c s)) as [r|] eqn:Er;
      [discriminate|].
    destruct pre as [|x pre].
    + simpl in E.
      destruct (match_here_complete _ _ M post) as [r Hr].
      rewrite <- E in Hr. now rewrite Hr in Er.
    + injection E as -> ->.
      apply (IH _ H). now exists pre, w, post.
Qed.

(** A text matches somewhere exactly when one of its parts belongs to
    the pattern. *)
Lemma MatchString_iff (re : regexp.t) (s : string) :
  regexp.MatchString re s = true <-> contains (regexp.matches re) s.
Proof.
  unfold regexp.MatchString, regexp.FindStringIndex.
  destruct (regexp.find_from re s 0) as [span|] eqn:E.
  - split; [intros _|reflexivity]. exact (find_from_some _ _ _ _ E).
  - split; [discriminate|]. intros C.
    now apply (find_from_none _ _ _ E) in C.
Qed.

Lemma matches_nil_inv (w : string) : regexp.matches [] w -> w = "".
Proof. now inversion 1. Qed.

Lemma matches_one_inv (p : ascii -> bool) (re : regexp.t) (w : string) :
  regexp.matches (regexp.One p :: re) w ->
  exists c w', w = String c w' /\ p c = true /\ regexp.matches re w'.
Proof.
  inversion 1; subst. now exists c, w0.
Qed.

Lemma matches_byte_inv (c : ascii) (re : regexp.t) (w : string) :
  regexp.matches (regexp.byte c :: re) w ->
  exists w', w = String c w' /\ regexp.matches re w'.
Proof.
  intros H. apply matches_one_inv in H.
  destruct H as [x [w' [-> [E M]]]].
  apply Ascii.eqb_eq in E. subst x. now exists w'.
Qed.

Lemma matches_many_inv (p : ascii -> bool) (re : regexp.t) (w : string) :
  regexp.matches (regexp.Many p :: re) w ->
  exists a w', a <> "" /\ all_chars p a = true /\ w = a ++ w' /\
               regexp.matches re w'.
Proof.
  intros H. remember (regexp.Many p :: re) as r eqn:R.
  induction H as [|q re0 c w Pc M IH|q re0 c w Pc M IH|q re0 c w Pc M IH];
    try discriminate; injection R as -> ->.
  - exists (String c ""), w. simpl. rewrite Pc.
    repeat split; [discriminate | assumption].
  - destruct (IH eq_refl) as [a [w' [_ [A [-> M']]]]].
    exists (String c a), w'. simpl. rewrite Pc, A.
    repeat split; [discriminate | assumption].
Qed.

Lemma matches_many_intro (p : ascii -> bool) (re : regexp.t)
  (a w' : string) :
  a <> "" -> all_chars p a = true -> regexp.matches re w' ->
  regexp.matches (regexp.Many p :: re) (a ++ w').
Proof.
  induction a as [|c a IH]; intros N A M; [congruence|].
  simpl in A. apply andb_true_iff in A. destruct A as [Pc A].
  destruct a as [|c' a].
  - simpl. now apply regexp.matches_last.
  - cbn [append]. apply regexp.matches_more; [assumption|].
    apply IH; [discriminate | assumption | assumption].
Qed.

Lemma matches_byte_intro (c : ascii) (re : regexp.t) (w : string) :
  regexp.matches re w -> regexp.matches (regexp.byte c :: re) (String c w).
Proof.
  intros M. apply regexp.matches_one; [apply Ascii.eqb_refl | assumption].
Qed.

(** The pattern [proc] denotes the tags. *)
Lemma proc_matches_iff (w : string) : regexp.matches proc w <-> is_tag w.
Proof.
  unfold proc. cbn [app regexp.literal]. split.
  - intros H.
    apply matches_byte_inv in H. destruct H as [w1 [-> H]].
    apply matches_one_inv in H. destruct H as [sg [w2 [-> [S H]]]].
    apply matches_many_inv in H. destruct H as [a [w3 [Na [Da [-> H]]]]].
    apply matches_byte_inv in H. destruct H as [w4 [-> H]].
    apply matches_many_inv in H. destruct H as [b [w5 [Nb [Db [-> H]]]]].
    do 6 (apply matches_byte_inv in H; destruct H as [? [-> H]]).
    apply matches_nil_inv in H. subst.
    exists sg, a, b. repeat split; assumption.
  - intros [sg [a [b [S [[Na Da] [[Nb Db] ->]]]]]].
    apply matches_byte_intro.
    apply regexp.matches_one; [exact S|].
    apply matches_many_intro; [assumption..|].
    cbn [append]. apply matches_byte_intro.
    apply matches_many_intro; [assumption..|].
    cbn [append]. do 6 apply matches_byte_intro. constructor.
Qed.

(** [name_output] takes a name as already processed exactly when the
    name contains a tag. *)
Lemma processed_iff (inputfile : string) :
  regexp.MatchString proc inputfile = true <-> contains is_tag inputfile.
Proof.
  rewrite MatchString_iff. unfold contains.
  split; intros [pre [w [post [E M]]]]; exists pre, w, post;
    (split; [exact E | now apply proc_matches_iff]).
Qed.

(** * Formatting *)

Lemma substring_full (t : string) : substring 0 (String.length t) t = t.
Proof.
  induction t as [|c t IH]; simpl; [reflexivity | now rewrite IH].
Qed.

Lemma slice_from_tail (c : ascii) (t : string) :
  slice_from (String c t) 1 = Ok t.
Proof.
  unfold slice_from. rewrite slice_ok by (simpl; lia).
  simpl. now rewrite Nat.sub_0_r, substring_full.
Qed.

Lemma Sprintf_plain (s : string) :
  has_percent s = false -> fmt.Sprintf s [] = Some s.
Proof.
  unfold has_percent.
  induction s as [|c s IH]; intros H; [reflexivity|].
  cbn [any_char] in H. apply orb_false_iff in H. destruct H as [Hc Hs].
  cbn [fmt.Sprintf].
  rewrite Ascii.eqb_sym in Hc. rewrite Hc, (IH Hs). reflexivity.
Qed.

Lemma Sprintf_tag (rest : string) (f : float64.t) :
  has_percent rest = false ->
  fmt.Sprintf ("{%.2f_Sec}_" ++ rest) [fmt.Float f]
  = Some ("{" ++ fmt.verb_f 0 2 f ++ "_Sec}_" ++ rest).
Proof.
  intros H.
  cbn [append fmt.Sprintf Ascii.eqb Bool.eqb option_map].
  rewrite (Sprintf_plain _ H). reflexivity.
Qed.

Lemma Sprintf_tag_plus (rest : string) (f : float64.t) :
  has_percent rest = false ->
  fmt.Sprintf ("{+" ++ "%.2f_Sec}_" ++ rest) [fmt.Float f]
  = Some ("{+" ++ fmt.verb_f 0 2 f ++ "_Sec}_" ++ rest).
Proof.
  intros H.
  cbn [append fmt.Sprintf Ascii.eqb Bool.eqb option_map].
  rewrite (Sprintf_plain _ H). reflexivity.
Qed.

(** The new name of a file that was not processed before. *)
Lemma name_output_unprocessed (inputfile : string) (seconds : float64.t) :
  regexp.MatchString proc inputfile = false ->
  has_percent inputfile = false ->
  name_output inputfile seconds =
    Ok ((if float64.geb seconds fzero then "{+" else "{")
        ++ fmt.verb_f 0 2 seconds ++ "_Sec}_" ++ inputfile).
Proof.
  intros M H. unfold name_output. rewrite M. cbn [bind].
  destruct (float64.geb seconds fzero).
  - cbn [append]. rewrite slice_from_tail. cbn [bind].
    change (String "{" (String "+" (String "%" (String "." (String "2"
             (String "f" (String "_" (String "S" (String "e" (String "c"
             (String "}" (String "_" inputfile))))))))))))
      with ("{+" ++ "%.2f_Sec}_" ++ inputfile).
    rewrite (Sprintf_tag_plus _ _ H). reflexivity.
  - cbn [bind]. rewrite (Sprintf_tag _ _ H). reflexivity.
Qed.

Lemma string_of_uint_digits (d : Decimal.uint) :
  all_chars is_digit (NilEmpty.string_of_uint d) = true.
Proof.
  induction d; simpl; try reflexivity; assumption.
Qed.

Lemma utoa_digit_run (n : Z) : digit_run (fmt.utoa n).
Proof.
  unfold fmt.utoa, digit_run.
  destruct (N.to_uint (Z.to_N n)) as [|d|d|d|d|d|d|d|d|d|d];
    (split; [discriminate|]);
    try reflexivity;
    cbn [NilZero.string_of_uint NilEmpty.string_of_uint all_chars];
    apply (string_of_uint_digits d).
Qed.

Lemma pad_left_0 (c : ascii) (s : string) : fmt.pad_left c 0 s = s.
Proof. reflexivity. Qed.

Lemma below_100_two_digits (n : Z) :
  0 <= n < 100 -> two_digits (fmt.pad_left "0" 2 (fmt.utoa n)) = true.
Proof.
  intros H.
  assert (A : forallb (fun k => two_digits
                         (fmt.pad_left "0" 2 (fmt.utoa (Z.of_nat k))))
                (seq 0 100) = true) by (vm_compute; reflexivity).
  rewrite forallb_forall in A.
  specialize (A (Z.to_nat n)).
  rewrite Z2Nat.id in A by lia.
  apply A, in_seq. lia.
Qed.

(** Under [%.2f] a finite number is written as an optional minus sign,
    digits, a point and exactly two digits. *)
Lemma verb_f_two_decimals (f : float64.t) :
  float64.is_finite f = true ->
  exists ip d1 d2,
    digit_run ip /\ is_digit d1 = true /\ is_digit d2 = true /\
    fmt.verb_f 0 2 f =
      (if sign_bit f then "-" else "") ++ ip ++ "."
      ++ String d1 (String d2 "").
Proof.
  assert (F : forall s m e, exists ip d1 d2,
             digit_run ip /\ is_digit d1 = true /\ is_digit d2 = true /\
             fmt.zero_padded 0 s (fmt.fixed 2 m e) =
               (if s then "-" else "") ++ ip ++ "."
               ++ String d1 (String d2 "")).
  { intros s m e. unfold fmt.fixed.
    change (10 ^ Z.of_nat 2) with 100.
    set (scaled := match e with
                   | Zneg k => fmt.round_half_even (m * 100) (2 ^ Zpos k)
                   | _ => m * 2 ^ e * 100
                   end).
    pose proof (below_100_two_digits (scaled mod 100)
                  (Z.mod_pos_bound scaled 100 eq_refl)) as T.
    destruct (fmt.pad_left "0" 2 (fmt.utoa (scaled mod 100)))
      as [|d1 [|d2 [|? ?]]]; try discriminate T.
    cbn [two_digits] in T. apply andb_true_iff in T. destruct T as [T1 T2].
    exists (fmt.utoa (scaled / 100)), d1, d2.
    split; [apply utoa_digit_run|]. split; [exact T1|]. split; [exact T2|].
    unfold fmt.zero_padded. destruct s; reflexivity. }
  destruct f as [s|s| |s m e]; try discriminate; intros _.
  - apply (F s 0 0).
  - apply (F s (Zpos m) e).
Qed.

(** A finite offset that is not at least zero is written with a minus
    sign. *)
Lemma negative_sign_bit (f : float64.t) :
  float64.is_finite f = true -> float64.geb f fzero = false ->
  sign_bit f = true.
Proof.
  destruct f as [s|s| |[|] m e]; try discriminate; reflexivity.
Qed.

(** * name_output on a name without tag *)

(** C7, as the claim states it, fails: the name [{+2.50_Sec}_movie.srt]
    has no part matching the pattern with two digits on each side of the
    point, yet [name_output] takes it as processed and does not prepend a
    fresh tag. *)
Lemma name_output_two_digit_pattern_fails :
  regexp.MatchString tag_two_digits "{+2.50_Sec}_movie.srt" = false /\
  ~ contains (regexp.matches tag_two_digits) "{+2.50_Sec}_movie.srt" /\
  regexp.MatchString proc "{+2.50_Sec}_movie.srt" = true /\
  name_output "{+2.50_Sec}_movie.srt" half = Ok "{+3.00_Sec}_movie.srt" /\
  name_output "{+2.50_Sec}_movie.srt" half
    <> Ok ("{+0.50_Sec}_" ++ "{+2.50_Sec}_movie.srt").
Proof.
  split; [reflexivity|].
  split.
  { intros C. apply MatchString_iff in C. discriminate C. }
  split; [reflexivity|].
  split; [vm_compute; reflexivity|].
  vm_compute. discriminate.
Qed.

(** C7, amended.  [name_output] takes a name as already processed
    exactly when the name contains a tag [{], sign, one or more digits,
    point, one or more digits, [_Sec}_].  A name without such a tag and
    without a percent sign gets a fresh tag in front of the whole
    original name: [{+] when the offset is at least zero and [{]
    otherwise, then the offset under [%.2f], then [_Sec}_]; a finite
    offset under [%.2f] is an optional minus sign, digits, a point and
    exactly two decimals, and the minus sign is there whenever the
    offset is not at least zero. *)
Theorem name_output_fresh_tag :
  (forall inputfile,
     regexp.MatchString proc inputfile = true <-> contains is_tag inputfile) /\
  (forall inputfile seconds,
     regexp.MatchString proc inputfile = false ->
     has_percent inputfile = false ->
     float64.is_finite seconds = true ->
     exists ip d1 d2,
       digit_run ip /\ is_digit d1 = true /\ is_digit d2 = true /\
       fmt.verb_f 0 2 seconds =
         (if sign_bit seconds then "-" else "") ++ ip ++ "."
         ++ String d1 (String d2 "") /\
       name_output inputfile seconds =
         Ok ((if float64.geb seconds fzero then "{+" else "{")
             ++ fmt.verb_f 0 2 seconds ++ "_Sec}_" ++ inputfile) /\
       (float64.geb seconds fzero = false -> sign_bit seconds = true)).
Proof.
  split; [exact processed_iff|].
  intros inputfile seconds M H F.
  destruct (verb_f_two_decimals seconds F) as [ip [d1 [d2 [R [D1 [D2 E]]]]]].
  exists ip, d1, d2.
  split; [exact R|]. split; [exact D1|]. split; [exact D2|].
  split; [exact E|].
  split; [exact (name_output_unprocessed _ _ M H)|].
  exact (negative_sign_bit _ F).
Qed.

Lemma name_output_fresh_tag_witness :
  name_output "movie.srt" f2_5 =
    Ok ((if float64.geb f2_5 fzero then "{+" else "{")
        ++ fmt.verb_f 0 2 f2_5 ++ "_Sec}_" ++ "movie.srt").
Proof.
  destruct (proj2 name_output_fresh_tag "movie.srt" f2_5
              eq_refl eq_refl eq_refl)
    as [ip [d1 [d2 [_ [_ [_ [_ [H _]]]]]]]].
  exact H.
Defined.

(** * The arithmetic of [shifted_time] and [render_time] *)

Lemma wrap_range (z : Z) : int64.min <= int64.wrap z <= int64.max.
Proof.
  unfold int64.wrap, int64.min, int64.max.
  pose proof (Z.mod_pos_bound (z + 2 ^ 63) (2 ^ 64) eq_refl). lia.
Qed.

Lemma wrap_small (z : Z) :
  int64.min <= z <= int64.max -> int64.wrap z = z.
Proof.
  unfold int64.wrap, int64.min, int64.max. intros H.
  rewrite Z.mod_small; lia.
Qed.

Lemma wrap_repr (z : Z) : exists k, int64.wrap z = z + k * 2 ^ 64.
Proof.
  exists (- ((z + 2 ^ 63) / 2 ^ 64)). unfold int64.wrap.
  pose proof (Z.div_mod (z + 2 ^ 63) (2 ^ 64) ltac:(lia)). lia.
Qed.

Lemma wrap_congr (a b k : Z) : a = b + k * 2 ^ 64 -> int64.wrap a = int64.wrap b.
Proof.
  intros ->. unfold int64.wrap. f_equal.
  replace (b + k * 2 ^ 64 + 2 ^ 63) with (b + 2 ^ 63 + k * 2 ^ 64) by lia.
  apply Z_mod_plus_full.
Qed.

(** The shifted time is the sum of the four terms, each a whole number
    of milliseconds, the seconds and the offset being truncated. *)
Lemma shifted_time_sum (hrs mins : Z) (secs incr : float64.t) :
  shifted_time hrs mins secs incr =
  int64.wrap
    (hrs * time.Hour + mins * time.Minute
     + float64.to_int64 (float64.mul secs f1000) * time.Millisecond
     + float64.to_int64 (float64.mul incr f1000) * time.Millisecond).
Proof.
  unfold shifted_time, int64.add, int64.mul. cbv zeta.
  set (a := hrs * time.Hour). set (b := mins * time.Minute).
  set (c := float64.to_int64 (float64.mul secs f1000) * time.Millisecond).
  set (d := float64.to_int64 (float64.mul incr f1000) * time.Millisecond).
  destruct (wrap_repr a) as [ka ->]. destruct (wrap_repr b) as [kb ->].
  destruct (wrap_repr c) as [kc ->]. destruct (wrap_repr d) as [kd ->].
  destruct (wrap_repr (a + ka * 2 ^ 64 + (b + kb * 2 ^ 64))) as [k1 ->].
  destruct (wrap_repr (a + ka * 2 ^ 64 + (b + kb * 2 ^ 64) + k1 * 2 ^ 64
                       + (c + kc * 2 ^ 64))) as [k2 ->].
  apply (wrap_congr _ _ (ka + kb + kc + kd + k1 + k2)). lia.
Qed.

Lemma shifted_time_range (hrs mins : Z) (secs incr : float64.t) :
  int64.min <= shifted_time hrs mins secs incr <= int64.max.
Proof. unfold shifted_time, int64.add. apply wrap_range. Qed.

Lemma In_upto (n : nat) :
  forall lo z, lo <= z < lo + Z.of_nat n -> In z (upto n lo).
Proof.
  induction n as [|n IH]; intros lo z H; [lia|].
  cbn [upto]. destruct (Z.eq_dec lo z) as [->|N]; [now left|].
  right. apply IH. lia.
Qed.

(** Every count of milliseconds below a minute is written back digit for
    digit: dividing by 1000 in binary64 and rendering with three
    decimals loses nothing. *)
Lemma seconds_text_digits (k : Z) :
  0 <= k < 60000 ->
  seconds_text k = digits_of 2 (k / 1000) ++ "." ++ digits_of 3 (k mod 1000).
Proof.
  intros H.
  assert (A : forallb
                (fun k => (seconds_text k =?
                           digits_of 2 (k / 1000) ++ "."
                           ++ digits_of 3 (k mod 1000))%string)
                (upto (Z.to_nat 60000) 0) = true)
    by (vm_compute; reflexivity).
  rewrite forallb_forall in A.
  apply String.eqb_eq, A, In_upto. rewrite Z2Nat.id; lia.
Qed.

Lemma verb_d_nonneg (w : nat) (z : Z) :
  0 <= z -> fmt.verb_d w z = digits_of w z.
Proof.
  intros H. unfold fmt.verb_d, fmt.zero_padded, digits_of.
  destruct (Z.ltb_spec z 0); [lia|]. now rewrite Z.abs_eq.
Qed.

Lemma quo_nonneg (a b : Z) :
  0 <= a <= int64.max -> 0 < b -> int64.quo a b = a / b.
Proof.
  intros Ha Hb. unfold int64.quo.
  rewrite Z.quot_div_nonneg by lia.
  apply wrap_small. unfold int64.min, int64.max in *.
  pose proof (Z.div_pos a b). pose proof (Z.div_le_upper_bound a b a).
  nia.
Qed.

Lemma rem_nonneg (a b : Z) : 0 <= a -> 0 < b -> int64.rem a b = a mod b.
Proof.
  intros Ha Hb. unfold int64.rem. apply Z.rem_mod_nonneg; lia.
Qed.

(** A kept time is written as the time of day of its milliseconds. *)
Lemma rendered_time_text (t : Z) :
  0 <= t <= int64.max -> rendered t = time_text (t / time.Millisecond).
Proof.
  intros H. unfold rendered, time_text.
  assert (Hm : 0 <= t mod time.Hour < time.Hour)
    by (apply Z.mod_pos_bound; reflexivity).
  assert (Hs : 0 <= t mod time.Minute < time.Minute)
    by (apply Z.mod_pos_bound; reflexivity).
  unfold int64.max, time.Hour, time.Minute, time.Millisecond in *.
  rewrite !rem_nonneg by lia.
  rewrite !quo_nonneg by (unfold int64.max; lia).
  rewrite !verb_d_nonneg by (apply Z.div_pos; lia).
  fold (seconds_text (t mod 60000000000 / 1000000)).
  rewrite seconds_text_digits by (split; [apply Z.div_pos; lia
    | apply Z.div_lt_upper_bound; lia]).
  replace (t / 1000000 / 3600000) with (t / 3600000000000)
    by (rewrite Z.div_div by lia; reflexivity).
  replace (t / 1000000 / 60000 mod 60)
    with (t mod 3600000000000 / 60000000000)
    by (Z.div_mod_to_equations; lia).
  replace (t / 1000000 / 1000 mod 60)
    with (t mod 60000000000 / 1000000 / 1000)
    by (Z.div_mod_to_equations; lia).
  replace (t / 1000000 mod 1000)
    with (t mod 60000000000 / 1000000 mod 1000)
    by (Z.div_mod_to_equations; lia).
  reflexivity.
Qed.

Lemma below_1000_three_digits (n : Z) :
  0 <= n < 1000 -> three_digits (digits_of 3 n) = true.
Proof.
  intros H.
  assert (A : forallb (fun k => three_digits (digits_of 3 k))
                (upto (Z.to_nat 1000) 0) = true) by (vm_compute; reflexivity).
  rewrite forallb_forall in A.
  apply A, In_upto. rewrite Z2Nat.id; lia.
Qed.

(** Below a hundred hours the time of day has the layout
    [HH:MM:SS.mmm]. *)
Lemma time_text_layout (ms : Z) :
  0 <= ms < 360000000 -> is_time_code (time_text ms) = true.
Proof.
  intros H. unfold time_text.
  assert (A : two_digits (digits_of 2 (ms / 3600000)) = true)
    by (apply below_100_two_digits; Z.div_mod_to_equations; lia).
  assert (B : two_digits (digits_of 2 (ms / 60000 mod 60)) = true)
    by (apply below_100_two_digits; Z.div_mod_to_equations; lia).
  assert (C : two_digits (digits_of 2 (ms / 1000 mod 60)) = true)
    by (apply below_100_two_digits; Z.div_mod_to_equations; lia).
  assert (D : three_digits (digits_of 3 (ms mod 1000)) = true)
    by (apply below_1000_three_digits; Z.div_mod_to_equations; lia).
  destruct (digits_of 2 (ms / 3600000)) as [|a1 [|a2 [|? ?]]];
    cbn in A; try discriminate A.
  destruct (digits_of 2 (ms / 60000 mod 60)) as [|b1 [|b2 [|? ?]]];
    cbn in B; try discriminate B.
  destruct (digits_of 2 (ms / 1000 mod 60)) as [|c1 [|c2 [|? ?]]];
    cbn in C; try discriminate C.
  destruct (digits_of 3 (ms mod 1000)) as [|d1 [|d2 [|d3 [|? ?]]]];
    cbn in D; try discriminate D.
  unfold is_time_code.
  cbn [append substring two_digits three_digits String.length
       String.eqb Ascii.eqb Bool.eqb Nat.eqb].
  rewrite A, B, C, D. reflexivity.
Qed.

(** The branch of [process_time]: for a time string whose fields are
    read, it returns the deletion sentinel exactly when the shifted time
    as the program computes it (in nanoseconds, the two products
    truncated) is negative; when it is zero or
    more the result is the text that [Sprintf] renders under
    [%02d:%02d:%06.3f] from the hours, the minutes and the seconds of
    the shifted time; that text is the time of day of the shifted
    milliseconds, in the layout [HH:MM:SS.mmm] as long as the time is
    below a hundred hours, and it is never the sentinel. *)
Lemma process_time_deleted_iff (time_string : string) (incr : float64.t)
  (hrs mins : Z) (secs : float64.t) :
  parse_time time_string = Ok (hrs, mins, secs) ->
  (process_time time_string incr = Ok DELETED <->
   shifted_time hrs mins secs incr < 0) /\
  (0 <= shifted_time hrs mins secs incr ->
   exists text,
     process_time time_string incr = Ok text /\
     fmt.Sprintf "%02d:%02d:%06.3f"
       [fmt.Int (int64.quo (shifted_time hrs mins secs incr) time.Hour);
        fmt.Int (int64.quo
                   (int64.rem (shifted_time hrs mins secs incr) time.Hour)
                   time.Minute);
        fmt.Float (float64.div
                     (float64.of_int
                        (int64.quo
                           (int64.rem (shifted_time hrs mins secs incr)
                                      time.Minute)
                           time.Millisecond))
                     f1000)]
     = Some text /\
     text = time_text (shifted_time hrs mins secs incr / time.Millisecond) /\
     (shifted_time hrs mins secs incr < 100 * time.Hour ->
      is_time_code text = true) /\
     text <> DELETED).
Proof.
  intros P. split; [split|].
  - intros H.
    destruct (Z_lt_le_dec (shifted_time hrs mins secs incr) 0) as [N|N];
      [exact N|].
    rewrite (process_time_kept _ _ _ _ _ P N) in H.
    injection H as H. now apply rendered_not_DELETED in H.
  - apply process_time_dropped, P.
  - intros N. exists (rendered (shifted_time hrs mins secs incr)).
    split; [apply process_time_kept; assumption|].
    split; [apply Sprintf_time|].
    pose proof (shifted_time_range hrs mins secs incr) as R.
    split; [apply rendered_time_text; lia|].
    split; [|apply rendered_not_DELETED].
    intros B. rewrite rendered_time_text by lia.
    apply time_text_layout. unfold time.Hour, time.Millisecond in *.
    Z.div_mod_to_equations; lia.
Qed.

Lemma process_time_deleted_iff_example :
  process_time "00:00:02.000" minus5 = Ok DELETED /\
  exists text, process_time "00:00:04.000" minus3 = Ok text /\ text <> DELETED.
Proof.
  split.
  - apply (proj1 (process_time_deleted_iff "00:00:02.000" minus5 0 0 secs2
                    eq_refl)).
    vm_compute; reflexivity.
  - destruct (proj2 (process_time_deleted_iff "00:00:04.000" minus3 0 0 secs4
                       eq_refl)) as [text [H1 [_ [_ [_ H2]]]]].
    + vm_compute; congruence.
    + exists text. split; assumption.
Defined.

(** * The converters on a deleted line *)

(** When [process_line] returns the sentinel, [convert_vtt] counts one
    more deleted subtitle, starts skipping and writes the sentinel with
    a second line feed. *)
Lemma vtt_line_deleted (seconds : float64.t) (st : conv) (old_line : string) :
  regexp.MatchString re_vtt old_line = true ->
  process_line old_line seconds = Ok DELETED ->
  vtt_line seconds st old_line =
    Ok (mkconv (int64.add (deleted_subs st) 1) true
               (output st ++ DELETED ++ newline)).
Proof.
  intros M P. unfold vtt_line. rewrite M, P. reflexivity.
Qed.

Lemma srt_line_deleted (seconds : float64.t) (st : conv) (old_line : string) :
  regexp.MatchString re_srt old_line = true ->
  process_line (strings.Replace old_line "," "." 2) seconds = Ok DELETED ->
  srt_line seconds st old_line =
    Ok (mkconv (int64.add (deleted_subs st) 1) true
               (output st ++ DELETED ++ newline)).
Proof.
  intros M P. unfold srt_line. rewrite M, P. reflexivity.
Qed.

(** While skipping, a caption line is dropped and an empty line ends the
    skipping without being written. *)
Lemma skipped_line (seconds : float64.t) (st : conv) (old_line : string) :
  regexp.MatchString re_vtt old_line = false ->
  skip st = true ->
  vtt_line seconds st old_line =
    Ok (mkconv (deleted_subs st)
               (negb (old_line =? "")%string) (output st)).
Proof.
  intros M S. unfold vtt_line. rewrite M, S.
  destruct st as [d k o]. simpl in S. subst k.
  destruct (old_line =? "")%string; reflexivity.
Qed.

(** The first end-to-end example of the specification. *)
Lemma convert_vtt_example1 :
  convert_vtt ["1"; "00:00:00.243 --> 00:00:02.110"; "Hello"; ""]
    (float64.of_ratio false 15 10) =
  Ok (0, unlines ["1"; "00:00:01.743 --> 00:00:03.610"; "Hello"; ""]).
Proof.
  vm_compute. reflexivity.
Qed.

(** A range whose end alone is deleted, end to end. *)
Lemma convert_vtt_end_only_deleted :
  convert_vtt ["1"; "00:00:05.000 --> 00:00:01.000"; "Hello"; ""] minus3 =
  Ok (0, unlines ["1"; "00:00:02.000 --> (DELETED)"; ""; "Hello"; ""]).
Proof.
  vm_compute. reflexivity.
Qed.

(** * name_output on a name that starts with a tag *)

(** A repetition takes a whole run when what follows the run cannot
    continue it. *)
Lemma match_here_run (p : ascii -> bool) (re : regexp.t) (a w r : string) :
  a <> "" -> all_chars p a = true ->
  regexp.match_here (regexp.Many p :: re) w = None ->
  regexp.match_here re w = Some r ->
  regexp.match_here (regexp.Many p :: re) (a ++ w) = Some r.
Proof.
  intros N A Hstop Hre.
  induction a as [|c a IH]; [congruence|].
  cbn [all_chars] in A. apply andb_true_iff in A. destruct A as [Pc A].
  cbn [append regexp.match_here]. rewrite Pc.
  destruct a as [|c' a].
  - cbn [append]. now rewrite Hstop.
  - now rewrite IH by (try discriminate; assumption).
Qed.

Lemma substring_prefix (x y : string) :
  substring 0 (String.length x) (x ++ y) = x.
Proof.
  induction x as [|c x IH]; simpl.
  - destruct y; reflexivity.
  - now rewrite IH.
Qed.

Lemma substring_suffix (x y : string) :
  substring (String.length x) (String.length y) (x ++ y) = y.
Proof.
  induction x as [|c x IH]; simpl; [apply substring_full | exact IH].
Qed.

Lemma slice_from_suffix (x y : string) :
  slice_from (x ++ y) (String.length (x ++ y) - String.length y) = Ok y.
Proof.
  unfold slice_from. rewrite slice_ok by lia.
  rewrite length_append.
  replace (String.length x + String.length y - String.length y)%nat
    with (String.length x) by lia.
  replace (String.length x + String.length y - String.length x)%nat
    with (String.length y) by lia.
  now rewrite substring_suffix.
Qed.

Lemma not_digit_stop (re : regexp.t) (c : ascii) (w : string) :
  is_digit c = false ->
  regexp.match_here (regexp.digits :: re) (String c w) = None.
Proof.
  intros H. unfold regexp.digits. cbn [regexp.match_here]. now rewrite H.
Qed.

(** On a tag followed by [rest], the pattern [proc] matches the tag. *)
Lemma match_here_tag (sg : ascii) (a b rest : string) :
  is_sign sg = true -> digit_run a -> digit_run b ->
  regexp.match_here proc
    (String "{" (String sg (a ++ "." ++ b ++ "_Sec}_" ++ rest)))
  = Some rest.
Proof.
  intros S [Na Da] [Nb Db].
  unfold proc. cbn [app regexp.literal].
  unfold regexp.byte at 1. cbn [regexp.match_here].
  rewrite Ascii.eqb_refl.
  unfold regexp.sign. cbn [regexp.match_here].
  fold (is_sign sg). rewrite S.
  apply match_here_run; [assumption | assumption | now apply not_digit_stop |].
  unfold regexp.byte at 1. cbn [append regexp.match_here].
  rewrite Ascii.eqb_refl.
  apply match_here_run; [assumption | assumption | now apply not_digit_stop |].
  cbn [append regexp.match_here regexp.byte Ascii.eqb Bool.eqb].
  apply match_here_nil.
Qed.

(** On the same text, the pattern [re_number] matches the number of the
    tag. *)
Lemma match_here_number (sg : ascii) (a b rest : string) :
  is_sign sg = true -> digit_run a -> digit_run b ->
  regexp.match_here re_number (String sg (a ++ "." ++ b ++ "_Sec}_" ++ rest))
  = Some ("_Sec}_" ++ rest).
Proof.
  intros S [Na Da] [Nb Db].
  unfold re_number, regexp.sign. cbn [regexp.match_here].
  fold (is_sign sg). rewrite S.
  apply match_here_run; [assumption | assumption | now apply not_digit_stop |].
  unfold regexp.byte at 1. cbn [append regexp.match_here].
  rewrite Ascii.eqb_refl.
  apply match_here_run; [assumption | assumption | now apply not_digit_stop |].
  apply match_here_nil.
Qed.

Lemma tag_append (sg : ascii) (a b rest : string) :
  String "{" (String sg (a ++ "." ++ b ++ "_Sec}_")) ++ rest =
  String "{" (String sg (a ++ "." ++ b ++ "_Sec}_" ++ rest)).
Proof.
  change (String "{" (String sg (a ++ "." ++ b ++ "_Sec}_")) ++ rest)
    with (String "{" (String sg ((a ++ "." ++ b ++ "_Sec}_") ++ rest))).
  now rewrite !append_assoc.
Qed.

Lemma number_append (sg : ascii) (a b rest : string) :
  String sg (a ++ "." ++ b ++ "_Sec}_" ++ rest) =
  String sg (a ++ "." ++ b) ++ "_Sec}_" ++ rest.
Proof.
  change (String sg (a ++ "." ++ b) ++ "_Sec}_" ++ rest)
    with (String sg ((a ++ "." ++ b) ++ "_Sec}_" ++ rest)).
  now rewrite !append_assoc.
Qed.

Lemma FindStringIndex_tag (sg : ascii) (a b rest : string) :
  is_sign sg = true -> digit_run a -> digit_run b ->
  let name := String "{" (String sg (a ++ "." ++ b ++ "_Sec}_")) ++ rest in
  regexp.FindStringIndex proc name =
    Some (0, String.length name - String.length rest)%nat.
Proof.
  intros S A B name. unfold regexp.FindStringIndex.
  assert (M : regexp.match_here proc name = Some rest).
  { unfold name. rewrite tag_append. now apply match_here_tag. }
  destruct name as [|c n] eqn:E; cbn [regexp.find_from]; now rewrite M.
Qed.

Lemma FindString_number (sg : ascii) (a b rest : string) :
  is_sign sg = true -> digit_run a -> digit_run b ->
  regexp.FindString re_number
    (String "{" (String sg (a ++ "." ++ b ++ "_Sec}_")) ++ rest)
  = String sg (a ++ "." ++ b).
Proof.
  intros S A B. rewrite tag_append.
  unfold regexp.FindString, regexp.FindStringIndex.
  cbn [regexp.find_from].
  replace (regexp.match_here re_number
             (String "{" (String sg (a ++ "." ++ b ++ "_Sec}_" ++ rest))))
    with (@None string) by reflexivity.
  rewrite (match_here_number _ _ _ _ S A B).
  rewrite number_append.
  set (num := String sg (a ++ "." ++ b)).
  set (tl := "_Sec}_" ++ rest).
  rewrite length_append.
  replace (1 + (String.length num + String.length tl - String.length tl) - 1)%nat
    with (String.length num) by lia.
  change (substring 1 (String.length num) (String "{" (num ++ tl)))
    with (substring 0 (String.length num) (num ++ tl)).
  apply substring_prefix.
Qed.

(** On a name that starts with a tag and holds no percent sign after
    it, [name_output] adds the offset to the number of the tag and
    writes the sum in a tag in front of what followed the old one. *)
Lemma name_output_retag (sg : ascii) (a b rest : string)
  (seconds v : float64.t) :
  is_sign sg = true -> digit_run a -> digit_run b ->
  has_percent rest = false ->
  strconv.ParseFloat (String sg (a ++ "." ++ b)) = strconv.Value v ->
  name_output (String "{" (String sg (a ++ "." ++ b ++ "_Sec}_")) ++ rest)
    seconds =
  Ok ((if float64.geb (float64.add v seconds) fzero then "{+" else "{")
      ++ fmt.verb_f 0 2 (float64.add v seconds) ++ "_Sec}_" ++ rest).
Proof.
  intros S A B H P.
  pose proof (FindStringIndex_tag sg a b rest S A B) as I. cbv zeta in I.
  unfold name_output, regexp.MatchString.
  rewrite I, (FindString_number _ _ _ _ S A B), P.
  cbn [float_or_fatal bind].
  rewrite slice_from_suffix. cbn [bind].
  destruct (float64.geb (float64.add v seconds) fzero).
  - cbn [append]. rewrite slice_from_tail. cbn [bind].
    change (String "{" (String "+" (String "%" (String "." (String "2"
             (String "f" (String "_" (String "S" (String "e" (String "c"
             (String "}" (String "_" rest))))))))))))
      with ("{+" ++ "%.2f_Sec}_" ++ rest).
    rewrite (Sprintf_tag_plus _ _ H). reflexivity.
  - cbn [bind]. rewrite (Sprintf_tag _ _ H). reflexivity.
Qed.

Lemma name_output_retag_example :
  name_output ("{+2.50_Sec}_" ++ "movie.srt") half =
  Ok ((if float64.geb (float64.add f2_5 half) fzero then "{+" else "{")
      ++ fmt.verb_f 0 2 (float64.add f2_5 half) ++ "_Sec}_" ++ "movie.srt").
Proof.
  apply (name_output_retag "+" "2" "50" "movie.srt" half f2_5);
    try reflexivity; split; (discriminate || reflexivity).
Qed.

(** * Finite results of binary64 rounding *)

Lemma digits2_pos_size (p : positive) : digits2_pos p = Pos.size p.
Proof. induction p; simpl; congruence. Qed.

Lemma Zdigits2_nonneg (m : Z) : 0 <= Zdigits2 m.
Proof. destruct m; simpl; lia. Qed.

(** A natural number below [2^k] has at most [k] binary digits. *)
Lemma Zdigits2_le (m k : Z) : 0 <= m < 2 ^ k -> 0 <= k -> Zdigits2 m <= k.
Proof.
  intros [H0 H] K. destruct m as [|p|p]; simpl; [lia| |lia].
  rewrite digits2_pos_size.
  pose proof (Pos.size_le p) as L.
  apply Pos2Z.pos_le_pos in L. rewrite Pos2Z.inj_pow in L.
  change (Z.pos p~0) with (2 * Z.pos p) in L.
  assert (P : 2 ^ Z.pos (Pos.size p) < 2 ^ (k + 1)).
  { rewrite Z.pow_add_r by lia. lia. }
  apply Z.pow_lt_mono_r_iff in P; lia.
Qed.

Lemma Zdigits2_gt (m : Z) : 0 <= m -> m < 2 ^ Zdigits2 m.
Proof.
  intros H. destruct m as [|p|p]; simpl; [lia| |lia].
  rewrite digits2_pos_size.
  pose proof (Pos.size_gt p) as G.
  apply Pos2Z.pos_lt_pos in G. now rewrite Pos2Z.inj_pow in G.
Qed.

Lemma shr_1_digits (mrs : shr_record) :
  0 <= shr_m mrs ->
  0 <= shr_m (shr_1 mrs) /\
  Zdigits2 (shr_m (shr_1 mrs)) = Z.max 0 (Zdigits2 (shr_m mrs) - 1).
Proof.
  destruct mrs as [m r s]. simpl shr_m at 1. intros H.
  destruct m as [|[p|p|]|p];
    cbn [shr_1 shr_m Zdigits2 digits2_pos orb];
    rewrite ?Pos2Z.inj_succ; lia.
Qed.

Lemma iter_shr_1_digits (p : positive) :
  forall mrs, 0 <= shr_m mrs ->
  0 <= shr_m (iter_pos shr_1 p mrs) /\
  Zdigits2 (shr_m (iter_pos shr_1 p mrs))
    = Z.max 0 (Zdigits2 (shr_m mrs) - Z.pos p).
Proof.
  induction p as [p IH|p IH|]; intros mrs H; cbn [iter_pos].
  - destruct (shr_1_digits mrs H) as [H1 D1].
    destruct (IH _ H1) as [H2 D2]. destruct (IH _ H2) as [H3 D3].
    split; [exact H3|]. rewrite D3, D2, D1. lia.
  - destruct (IH _ H) as [H2 D2]. destruct (IH _ H2) as [H3 D3].
    split; [exact H3|]. rewrite D3, D2. lia.
  - apply shr_1_digits, H.
Qed.

Lemma shr_fexp_digits (m e : Z) (l : location) :
  0 <= m ->
  let '(mrs, e1) := shr_fexp float64.prec float64.emax m e l in
  0 <= shr_m mrs /\
  e1 = Z.max e (fexp float64.prec float64.emax (Zdigits2 m + e)) /\
  Zdigits2 (shr_m mrs) + e1 <= Z.max e1 (Zdigits2 m + e).
Proof.
  intros H. unfold shr_fexp, shr.
  assert (M : shr_m (shr_record_of_loc m l) = m)
    by (destruct l as [|[| |]]; reflexivity).
  pose proof (Zdigits2_nonneg m) as D.
  destruct (fexp float64.prec float64.emax (Zdigits2 m + e) - e)
    as [|p|p] eqn:E.
  - rewrite M. lia.
  - destruct (iter_shr_1_digits p (shr_record_of_loc m l)) as [H1 D1];
      [rewrite M; exact H|].
    rewrite M in D1. split; [exact H1|]. split; [lia|]. rewrite D1. lia.
  - rewrite M. lia.
Qed.

Lemma round_nearest_even_bounds (mx : Z) (lx : location) :
  0 <= mx -> mx <= round_nearest_even mx lx <= mx + 1.
Proof.
  intros H. destruct lx as [|[| |]]; simpl; try lia.
  destruct (Z.even mx); lia.
Qed.

(** Rounding to binary64 yields a finite number as soon as the value is
    below [2^1023]. *)
Lemma binary_round_aux_finite (s : bool) (mx ex : Z) (lx : location) :
  0 <= mx -> ex <= 971 -> Zdigits2 mx + ex <= 1023 ->
  float64.is_finite (binary_round_aux float64.prec float64.emax s mx ex lx)
  = true.
Proof.
  intros H E D. unfold binary_round_aux.
  pose proof (shr_fexp_digits mx ex lx H) as S1.
  destruct (shr_fexp float64.prec float64.emax mx ex lx) as [mrs1 e1].
  destruct S1 as [H1 [E1 D1]].
  pose proof (round_nearest_even_bounds (shr_m mrs1)
                (loc_of_shr_record mrs1) H1) as R.
  set (m2 := round_nearest_even (shr_m mrs1) (loc_of_shr_record mrs1)) in *.
  assert (D2 : Zdigits2 m2 <= Zdigits2 (shr_m mrs1) + 1).
  { apply Zdigits2_le; [|pose proof (Zdigits2_nonneg (shr_m mrs1)); lia].
    pose proof (Zdigits2_gt _ H1) as G.
    rewrite Z.pow_add_r by (pose proof (Zdigits2_nonneg (shr_m mrs1)); lia).
    lia. }
  pose proof (shr_fexp_digits m2 e1 loc_Exact ltac:(lia)) as S2.
  destruct (shr_fexp float64.prec float64.emax m2 e1 loc_Exact) as [mrs2 e2].
  destruct S2 as [H2 [E2 _]].
  unfold fexp, emin, float64.prec, float64.emax in *.
  destruct (shr_m mrs2) as [|p|p]; [reflexivity| |lia].
  destruct (Z.leb_spec e2 (1024 - 53)); [reflexivity|lia].
Qed.

(** The nearest binary64 number to a ratio is finite as soon as the
    numerator is below [2^1023]. *)
Lemma of_ratio_finite (s : bool) (n : Z) (d : positive) :
  0 <= n < 2 ^ 1023 -> float64.is_finite (float64.of_ratio s n d) = true.
Proof.
  intros [N0 N]. unfold float64.of_ratio.
  destruct n as [|p|p]; [reflexivity| |lia].
  unfold SFdiv_core_binary.
  set (e' := Z.min _ _).
  assert (E : e' <= 0) by (unfold e'; apply Z.le_min_r).
  assert (Dn : Zdigits2 (Z.pos p) <= 1023) by (apply Zdigits2_le; lia).
  pose proof (Zdigits2_gt (Z.pos p) ltac:(lia)) as Gn.
  pose proof (Zdigits2_nonneg (Z.pos p)) as Pn.
  replace (0 - 0 - e') with (- e') by lia.
  set (m' := match - e' with
             | 0 => Z.pos p
             | Z.pos _ => Z.shiftl (Z.pos p) (- e')
             | Z.neg _ => 0
             end).
  assert (M : 0 <= m' /\ Zdigits2 m' + e' <= Zdigits2 (Z.pos p)).
  { unfold m'. destruct (- e') as [|k|k] eqn:K; try lia.
    rewrite Z.shiftl_mul_pow2 by lia.
    split; [lia|].
    assert (Zdigits2 (Z.pos p * 2 ^ Z.pos k)
            <= Zdigits2 (Z.pos p) + Z.pos k); [|lia].
    apply Zdigits2_le; [|lia].
    rewrite Z.pow_add_r by lia. nia. }
  destruct M as [M0 M].
  pose proof (Z_div_mod m' (Z.pos d) ltac:(lia)) as Q.
  destruct (Z.div_eucl m' (Z.pos d)) as [q r].
  destruct Q as [Q R].
  assert (Q0 : 0 <= q <= m') by nia.
  apply binary_round_aux_finite; [lia | lia |].
  assert (Zdigits2 q <= Zdigits2 m'); [|lia].
  apply Zdigits2_le; [|apply Zdigits2_nonneg].
  pose proof (Zdigits2_gt m' M0). lia.
Qed.

(** * Reading digits *)

Ltac by_bits c :=
  destruct c as [[] [] [] [] [] [] [] []]; try discriminate; try reflexivity.

Lemma digit_not_letter (c : ascii) : is_digit c = true -> is_letter c = false.
Proof. by_bits c. Qed.

Lemma digit_not_sign (c : ascii) : is_digit c = true -> is_sign c = false.
Proof. by_bits c. Qed.

Lemma sign_not_letter (c : ascii) : is_sign c = true -> is_letter c = false.
Proof. by_bits c. Qed.

Lemma digit_val_range (c : ascii) : is_digit c = true -> 0 <= digit_val c <= 9.
Proof. by_bits c; intros _; vm_compute; split; discriminate. Qed.

Lemma sign_cases (c : ascii) : is_sign c = true -> c = "+"%char \/ c = "-"%char.
Proof. by_bits c; auto. Qed.

Lemma dec_range (a : string) :
  all_chars is_digit a = true ->
  forall acc, 0 <= acc ->
  0 <= dec acc a < (acc + 1) * 10 ^ Z.of_nat (String.length a).
Proof.
  induction a as [|c a IH]; intros A acc H.
  - simpl. lia.
  - cbn [all_chars] in A. apply andb_true_iff in A. destruct A as [C A].
    pose proof (digit_val_range c C) as R.
    cbn [dec String.length]. rewrite Nat2Z.inj_succ, Z.pow_succ_r by lia.
    specialize (IH A (10 * acc + digit_val c) ltac:(lia)).
    nia.
Qed.

Lemma no_letter_append (a b : string) :
  any_char is_letter (a ++ b) = any_char is_letter a || any_char is_letter b.
Proof. apply any_char_append. Qed.

Lemma digits_no_letter (a : string) :
  all_chars is_digit a = true -> any_char is_letter a = false.
Proof.
  induction a as [|c a IH]; [reflexivity|].
  cbn [all_chars any_char]. intros A.
  apply andb_true_iff in A. destruct A as [C A].
  now rewrite (digit_not_letter c C), (IH A).
Qed.

Lemma read_digits_stop (rest : string) (acc : Z) (n : nat) :
  no_digit_ahead rest -> strconv.read_digits acc n rest = (acc, n, rest).
Proof.
  destruct rest as [|c r]; [reflexivity|]. simpl. now intros ->.
Qed.

Lemma read_digits_run (a rest : string) :
  all_chars is_digit a = true -> no_digit_ahead rest ->
  forall acc n,
  strconv.read_digits acc n (a ++ rest)
  = (dec acc a, (n + String.length a)%nat, rest).
Proof.
  intros A R. induction a as [|c a IH]; intros acc n.
  - cbn [append dec String.length]. rewrite Nat.add_0_r.
    now apply read_digits_stop.
  - cbn [all_chars] in A. apply andb_true_iff in A. destruct A as [C A].
    cbn [append strconv.read_digits dec String.length]. rewrite C.
    rewrite (IH A). f_equal. f_equal. lia.
Qed.

Lemma digits_val_run (a : string) :
  all_chars is_digit a = true ->
  forall acc, strconv.digits_val acc a = Some (dec acc a).
Proof.
  induction a as [|c a IH]; intros A acc; [reflexivity|].
  cbn [all_chars] in A. apply andb_true_iff in A. destruct A as [C A].
  cbn [strconv.digits_val dec]. rewrite C. now apply IH.
Qed.

Lemma dec_append (a b : string) :
  forall acc, dec acc (a ++ b) = dec (dec acc a) b.
Proof.
  induction a as [|c a IH]; intros acc; [reflexivity|].
  cbn [append dec]. apply IH.
Qed.

(** [parse_decimal] reads [digits.digits] as the integer of all its
    digits together with the count of those after the point. *)
Lemma parse_decimal_run (a b : string) :
  digit_run a -> all_chars is_digit b = true ->
  strconv.parse_decimal (a ++ "." ++ b)
  = Some (dec 0 (a ++ b), String.length b).
Proof.
  intros [Na Da] Db. unfold strconv.parse_decimal.
  rewrite (read_digits_run a ("." ++ b) Da) by reflexivity.
  cbn [append].
  pose proof (read_digits_run b "" Db I (dec 0 a) 0%nat) as R.
  rewrite append_empty_r in R. rewrite R.
  rewrite dec_append.
  destruct a as [|c a]; [congruence|]. reflexivity.
Qed.

Lemma pow10_pos (k : nat) : 0 < 10 ^ Z.of_nat k.
Proof. apply Z.pow_pos_nonneg; lia. Qed.

(** [ParseFloat] on [digits.digits], with or without a sign: the nearest
    binary64 number, unless the digits denote [2^1023] or more. *)
Lemma ParseFloat_unsigned (a b : string) :
  digit_run a -> all_chars is_digit b = true ->
  dec 0 (a ++ b) < 2 ^ 1023 ->
  strconv.ParseFloat (a ++ "." ++ b)
  = strconv.Value
      (float64.of_ratio false (dec 0 (a ++ b))
         (Z.to_pos (10 ^ Z.of_nat (String.length b)))).
Proof.
  intros [Na Da] Db B. unfold strconv.ParseFloat.
  rewrite !no_letter_append, (digits_no_letter a Da), (digits_no_letter b Db).
  cbn [any_char orb is_letter].
  replace (is_letter ".") with false by reflexivity. cbn [orb].
  destruct a as [|c a]; [congruence|].
  assert (C : is_digit c = true)
    by (cbn [all_chars] in Da; apply andb_true_iff in Da; tauto).
  assert (S : (match String c a ++ "." ++ b with
               | String "+" t => (false, t)
               | String "-" t => (true, t)
               | _ => (false, String c a ++ "." ++ b)
               end) = (false, String c a ++ "." ++ b)).
  { cbn [append]. clear - C. by_bits c. }
  rewrite S, (parse_decimal_run (String c a) b (conj Na Da) Db).
  rewrite of_ratio_finite; [reflexivity|].
  split; [|exact B].
  apply (dec_range (String c a ++ b)); [|lia].
  clear - Da Db. induction (String c a) as [|x s IH]; [exact Db|].
  cbn [append all_chars] in *. apply andb_true_iff in Da.
  destruct Da as [X Da]. now rewrite X, IH.
Qed.

Lemma ParseFloat_signed (sg : ascii) (a b : string) :
  is_sign sg = true -> digit_run a -> all_chars is_digit b = true ->
  dec 0 (a ++ b) < 2 ^ 1023 ->
  strconv.ParseFloat (String sg (a ++ "." ++ b))
  = strconv.Value
      (float64.of_ratio (sg =? "-")%char (dec 0 (a ++ b))
         (Z.to_pos (10 ^ Z.of_nat (String.length b)))).
Proof.
  intros S [Na Da] Db B. unfold strconv.ParseFloat.
  cbn [any_char].
  rewrite (sign_not_letter sg S), !no_letter_append,
    (digits_no_letter a Da), (digits_no_letter b Db).
  cbn [any_char orb is_letter].
  replace (is_letter ".") with false by reflexivity. cbn [orb].
  assert (A : all_chars is_digit (a ++ b) = true).
  { clear - Da Db. induction a as [|x s IH]; [exact Db|].
    cbn [append all_chars] in *. apply andb_true_iff in Da.
    destruct Da as [X Da]. now rewrite X, IH. }
  pose proof (dec_range (a ++ b) A 0 ltac:(lia)) as R.
  destruct (sign_cases sg S) as [-> | ->];
    rewrite (parse_decimal_run a b (conj Na Da) Db);
    (rewrite of_ratio_finite; [reflexivity | lia]).
Qed.

(** * Reading a time code *)

Lemma in_range_small (z : Z) : -1000 <= z <= 1000 -> int64.in_range z = true.
Proof.
  intros H. unfold int64.in_range, int64.min, int64.max.
  apply andb_true_iff. split; apply Z.leb_le; lia.
Qed.

Lemma Atoi_two_digits (c d : ascii) :
  is_digit c = true -> is_digit d = true ->
  strconv.Atoi (String c (String d "")) = Some (dec 0 (String c (String d ""))).
Proof.
  intros C D. unfold strconv.Atoi.
  assert (S : (match String c (String d "") with
               | String "+" s' => strconv.unsigned s'
               | String "-" s' => option_map Z.opp (strconv.unsigned s')
               | _ => strconv.unsigned (String c (String d ""))
               end) = strconv.unsigned (String c (String d ""))).
  { clear - C. by_bits c. }
  rewrite S. unfold strconv.unsigned.
  rewrite digits_val_run by (cbn [all_chars]; now rewrite C, D).
  rewrite in_range_small; [reflexivity|].
  pose proof (digit_val_range c C). pose proof (digit_val_range d D).
  cbn [dec]. lia.
Qed.

Lemma two_digits_inv (s : string) :
  two_digits s = true ->
  exists c d, s = String c (String d "") /\
              is_digit c = true /\ is_digit d = true.
Proof.
  destruct s as [|c [|d [|? ?]]]; try discriminate.
  cbn [two_digits]. intros H. apply andb_true_iff in H.
  now exists c, d.
Qed.

Lemma three_digits_inv (s : string) :
  three_digits s = true ->
  exists c d e, s = String c (String d (String e "")) /\
                is_digit c = true /\ is_digit d = true /\ is_digit e = true.
Proof.
  destruct s as [|c [|d [|e [|? ?]]]]; try discriminate.
  cbn [three_digits]. intros H.
  apply andb_true_iff in H. destruct H as [H E].
  apply andb_true_iff in H. now exists c, d, e.
Qed.

Lemma one_byte_inv (s : string) (c : ascii) :
  (s =? String c "")%string = true -> s = String c "".
Proof. apply String.eqb_eq. Qed.

(** A time code is twelve bytes: digits in 2-2-2-3 with their
    separators. *)
Lemma is_time_code_inv (t : string) :
  is_time_code t = true ->
  exists h1 h2 m1 m2 s1 s2 f1 f2 f3,
    t = String h1 (String h2 (String ":" (String m1 (String m2 (String ":"
          (String s1 (String s2 (String "." (String f1 (String f2
          (String f3 ""))))))))))) /\
    is_digit h1 = true /\ is_digit h2 = true /\
    is_digit m1 = true /\ is_digit m2 = true /\
    is_digit s1 = true /\ is_digit s2 = true /\
    is_digit f1 = true /\ is_digit f2 = true /\ is_digit f3 = true.
Proof.
  unfold is_time_code. intros H.
  repeat (apply andb_true_iff in H; destruct H as [H ?]).
  match goal with L : (String.length t =? 12)%nat = true |- _ =>
    apply Nat.eqb_eq in L end.
  do 12 (destruct t as [|? t]; [discriminate|]).
  destruct t; [|discriminate].
  cbn [substring] in *.
  repeat match goal with
         | E : two_digits _ = true |- _ =>
             cbn [two_digits] in E; apply andb_true_iff in E; destruct E
         | E : three_digits _ = true |- _ =>
             cbn [three_digits] in E; apply andb_true_iff in E;
             destruct E as [E ?]; apply andb_true_iff in E; destruct E
         | E : (String _ "" =? String _ "")%string = true |- _ =>
             apply String.eqb_eq in E; injection E as ->
         end.
  do 9 eexists. split; [reflexivity|]. tauto.
Qed.

(** [process_time] reads every time code: its fields are the numbers
    that its digits denote. *)
Lemma parse_time_time_code (t : string) :
  is_time_code t = true ->
  parse_time t = Ok (hours_of t, minutes_of t, seconds_of t).
Proof.
  intros H.
  destruct (is_time_code_inv t H)
    as (h1 & h2 & m1 & m2 & s1 & s2 & f1 & f2 & f3 & -> &
        H1 & H2 & M1 & M2 & S1 & S2 & F1 & F2 & F3).
  unfold parse_time, hours_of, minutes_of, seconds_of, millis_of.
  unfold slice. cbn [String.length Nat.leb andb Nat.sub substring bind].
  rewrite (Atoi_two_digits h1 h2 H1 H2). cbn [or_fatal bind].
  rewrite (Atoi_two_digits m1 m2 M1 M2). cbn [or_fatal bind].
  change (String s1 (String s2 (String "." (String f1 (String f2
            (String f3 ""))))))
    with (String s1 (String s2 "") ++ "."
          ++ String f1 (String f2 (String f3 ""))).
  rewrite ParseFloat_unsigned.
  - reflexivity.
  - split; [discriminate|]. cbn [all_chars]. now rewrite S1, S2.
  - cbn [all_chars]. now rewrite F1, F2, F3.
  - pose proof (digit_val_range _ S1). pose proof (digit_val_range _ S2).
    pose proof (digit_val_range _ F1). pose proof (digit_val_range _ F2).
    pose proof (digit_val_range _ F3).
    apply Z.lt_le_trans with (2 ^ 20); [cbn [append dec]; lia|].
    apply Z.pow_le_mono_r; lia.
Qed.

(** On a time code [process_time] never stops the run: it returns the
    sentinel when the shifted time is negative and otherwise the time of
    day of the shifted milliseconds. *)
Lemma process_time_time_code (t : string) (incr : float64.t) :
  is_time_code t = true ->
  process_time t incr =
    if shifted_of t incr >=? 0
    then Ok (time_text (shifted_of t incr / time.Millisecond))
    else Ok DELETED.
Proof.
  intros H. unfold shifted_of.
  rewrite (process_time_parsed _ _ _ _ _ (parse_time_time_code t H)).
  destruct (Z.geb_spec
              (shifted_time (hours_of t) (minutes_of t) (seconds_of t) incr)
              0) as [G|G]; [|reflexivity].
  rewrite rendered_time_text; [reflexivity|].
  pose proof (shifted_time_range (hours_of t) (minutes_of t)
                (seconds_of t) incr). lia.
Qed.

(** * Reading back what was written *)

Lemma dec_digits_of_2 (n : Z) : 0 <= n < 100 -> dec 0 (digits_of 2 n) = n.
Proof.
  intros H.
  assert (A : forallb (fun k => dec 0 (digits_of 2 k) =? k)
                (upto (Z.to_nat 100) 0) = true) by (vm_compute; reflexivity).
  rewrite forallb_forall in A.
  apply Z.eqb_eq, A, In_upto. rewrite Z2Nat.id; lia.
Qed.

Lemma dec_digits_of_3 (n : Z) : 0 <= n < 1000 -> dec 0 (digits_of 3 n) = n.
Proof.
  intros H.
  assert (A : forallb (fun k => dec 0 (digits_of 3 k) =? k)
                (upto (Z.to_nat 1000) 0) = true) by (vm_compute; reflexivity).
  rewrite forallb_forall in A.
  apply Z.eqb_eq, A, In_upto. rewrite Z2Nat.id; lia.
Qed.

Lemma dec_three (acc : Z) (s : string) :
  three_digits s = true -> dec acc s = 1000 * acc + dec 0 s.
Proof.
  intros H. destruct (three_digits_inv s H) as (c & d & e & -> & _).
  cbn [dec]. lia.
Qed.

(** The fields of a written time are those of its milliseconds. *)
Lemma time_text_fields (ms : Z) :
  0 <= ms < 360000000 ->
  hours_of (time_text ms) = ms / 3600000 /\
  minutes_of (time_text ms) = ms / 60000 mod 60 /\
  millis_of (time_text ms) = ms mod 60000.
Proof.
  intros H. unfold hours_of, minutes_of, millis_of, time_text.
  assert (RA : 0 <= ms / 3600000 < 100) by (Z.div_mod_to_equations; lia).
  assert (RB : 0 <= ms / 60000 mod 60 < 100)
    by (Z.div_mod_to_equations; lia).
  assert (RC : 0 <= ms / 1000 mod 60 < 100)
    by (Z.div_mod_to_equations; lia).
  assert (RD : 0 <= ms mod 1000 < 1000) by (Z.div_mod_to_equations; lia).
  pose proof (dec_digits_of_2 _ RA) as VA.
  pose proof (dec_digits_of_2 _ RB) as VB.
  pose proof (dec_digits_of_2 _ RC) as VC.
  pose proof (dec_digits_of_3 _ RD) as VD.
  pose proof (below_100_two_digits _ RA) as A.
  pose proof (below_100_two_digits _ RB) as B.
  pose proof (below_100_two_digits _ RC) as C.
  pose proof (below_1000_three_digits _ RD) as D.
  change (fmt.pad_left "0" 2 (fmt.utoa (ms / 3600000)))
    with (digits_of 2 (ms / 3600000)) in A.
  change (fmt.pad_left "0" 2 (fmt.utoa (ms / 60000 mod 60)))
    with (digits_of 2 (ms / 60000 mod 60)) in B.
  change (fmt.pad_left "0" 2 (fmt.utoa (ms / 1000 mod 60)))
    with (digits_of 2 (ms / 1000 mod 60)) in C.
  destruct (two_digits_inv _ A) as (a1 & a2 & EA & _).
  destruct (two_digits_inv _ B) as (b1 & b2 & EB & _).
  destruct (two_digits_inv _ C) as (c1 & c2 & EC & _).
  destruct (three_digits_inv _ D) as (d1 & d2 & d3 & ED & _).
  rewrite EA, EB, EC, ED in *.
  cbn [append substring].
  split; [exact VA|]. split; [exact VB|].
  change (dec 0 (String c1 (String c2 (String d1 (String d2
            (String d3 ""))))))
    with (dec (dec 0 (String c1 (String c2 "")))
            (String d1 (String d2 (String d3 "")))).
  rewrite dec_three by exact D.
  rewrite VC, VD. Z.div_mod_to_equations; lia.
Qed.

(** X1.  What [process_time] writes for a time below a hundred hours it
    reads back as the same hours, minutes and milliseconds: an output
    file can be given to the tool again. *)
Theorem written_time_is_read_back (ms : Z) :
  0 <= ms < 360000000 ->
  parse_time (time_text ms) =
    Ok (ms / 3600000, ms / 60000 mod 60,
        float64.of_ratio false (ms mod 60000) 1000).
Proof.
  intros H.
  rewrite (parse_time_time_code _ (time_text_layout ms H)).
  unfold seconds_of.
  destruct (time_text_fields ms H) as [-> [-> ->]]. reflexivity.
Qed.

Lemma written_time_is_read_back_witness :
  parse_time (time_text 3723004) =
    Ok (3723004 / 3600000, 3723004 / 60000 mod 60,
        float64.of_ratio false (3723004 mod 60000) 1000).
Proof.
  apply (written_time_is_read_back 3723004). lia.
Defined.

(** * The loops of the converters *)

Lemma vtt_line_other (seconds : float64.t) (st : conv) (l : string) :
  regexp.MatchString re_vtt l = false ->
  vtt_line seconds st l = Ok (pass_or_skip st l).
Proof.
  intros M. unfold vtt_line, pass_or_skip. rewrite M.
  destruct (skip st); reflexivity.
Qed.

Lemma srt_line_other (seconds : float64.t) (st : conv) (l : string) :
  regexp.MatchString re_srt l = false ->
  srt_line seconds st l = Ok (pass_or_skip st l).
Proof.
  intros M. unfold srt_line, pass_or_skip. rewrite M.
  destruct (skip st); reflexivity.
Qed.

Lemma unlines_app (a b : list string) :
  unlines (a ++ b) = unlines a ++ unlines b.
Proof.
  induction a as [|l a IH]; [reflexivity|].
  cbn [app unlines]. now rewrite IH, !append_assoc.
Qed.

Section Copying.

Variable re : regexp.t.
Variable step : conv -> string -> result conv.
Hypothesis step_other :
  forall st l, regexp.MatchString re l = false ->
               step st l = Ok (pass_or_skip st l).

(** Lines without a time line are copied as they are. *)
Lemma run_lines_copy (lines : list string) :
  Forall (fun l => regexp.MatchString re l = false) lines ->
  forall st, skip st = false ->
  run_lines step st lines =
    Ok (mkconv (deleted_subs st) false (output st ++ unlines lines)).
Proof.
  induction 1 as [|l lines M _ IH]; intros st S.
  - cbn [run_lines unlines]. rewrite append_empty_r.
    destruct st as [d k o]. simpl in S. now subst k.
  - cbn [run_lines bind]. rewrite (step_other _ _ M). cbn [bind].
    unfold pass_or_skip. rewrite S.
    rewrite IH by (unfold WriteString; exact S).
    unfold WriteString. cbn [deleted_subs output unlines].
    now rewrite !append_assoc.
Qed.

(** While skipping, the captions of the block and the empty line that
    ends it are dropped; the empty line ends the skipping. *)
Lemma run_lines_skip (caps rest : list string) :
  Forall (caption re) caps ->
  forall st, skip st = true ->
  run_lines step st (caps ++ "" :: rest) =
    match regexp.MatchString re "" with
    | false =>
        run_lines step (mkconv (deleted_subs st) false (output st)) rest
    | true => run_lines step st ("" :: rest)
    end.
Proof.
  induction 1 as [|l caps [M N] _ IH]; intros st S.
  - cbn [app]. destruct (regexp.MatchString re "") eqn:E; [reflexivity|].
    cbn [run_lines]. rewrite (step_other _ _ E). cbn [bind].
    unfold pass_or_skip. rewrite S. reflexivity.
  - cbn [app run_lines]. rewrite (step_other _ _ M). cbn [bind].
    unfold pass_or_skip. rewrite S.
    apply String.eqb_neq in N. rewrite N. now apply IH.
Qed.

End Copying.

(** * process_line on time-range lines *)

Lemma time_text_has_colon (ms : Z) : has_colon (time_text ms) = true.
Proof.
  unfold has_colon, time_text. rewrite any_char_append.
  cbn [append any_char]. rewrite Ascii.eqb_refl. apply orb_true_r.
Qed.

Lemma time_text_eqb_DELETED (ms : Z) :
  (time_text ms =? DELETED)%string = false.
Proof.
  apply String.eqb_neq. intros E.
  pose proof (time_text_has_colon ms) as C. rewrite E in C. discriminate C.
Qed.

(** On a time-range line [process_line] never stops the run, and what
    it returns is fixed by the two shifted times. *)
Lemma process_line_time_line (line : string) (seconds : float64.t) :
  is_time_line line = true ->
  process_line line seconds =
    Ok (line_text (shifted_of (substring 0 12 line) seconds)
                  (shifted_of (substring 17 12 line) seconds)).
Proof.
  unfold is_time_line. intros H.
  apply andb_true_iff in H. destruct H as [H E].
  apply andb_true_iff in H. destruct H as [L S].
  apply Nat.leb_le in L.
  rewrite (process_line_long _ _ L).
  rewrite (process_time_time_code _ seconds S),
          (process_time_time_code _ seconds E).
  unfold line_text, written.
  set (ns := shifted_of (substring 0 12 line) seconds).
  set (ne := shifted_of (substring 17 12 line) seconds).
  destruct (Z.geb_spec ns 0), (Z.ltb_spec ns 0); try lia;
    destruct (Z.geb_spec ne 0), (Z.ltb_spec ne 0); try lia;
    cbn [bind]; rewrite ?String.eqb_refl, ?time_text_eqb_DELETED;
    reflexivity.
Qed.

Lemma substring_skip (x y : string) :
  forall n m, substring (String.length x + n) m (x ++ y) = substring n m y.
Proof.
  induction x as [|c x IH]; intros n m; [reflexivity|].
  cbn [String.length Nat.add append substring]. apply IH.
Qed.

Lemma substring_exact (x y : string) (n : nat) :
  String.length x = n -> substring 0 n (x ++ y) = x.
Proof. intros <-. apply substring_prefix. Qed.

(** X2.  [process_line] reads bytes 0-11 and 17-28 only: neither the
    five bytes between the two time codes, where the arrow stands, nor
    what follows byte 28 has any effect on what it returns. *)
Theorem process_line_reads_two_fields
  (a sep b tail sep' tail' : string) (seconds : float64.t) :
  String.length a = 12%nat -> String.length b = 12%nat ->
  String.length sep = 5%nat -> String.length sep' = 5%nat ->
  process_line (a ++ sep ++ b ++ tail) seconds =
  process_line (a ++ sep' ++ b ++ tail') seconds.
Proof.
  intros A B S S'.
  assert (F : forall p t, String.length p = 5%nat ->
            process_line (a ++ p ++ b ++ t) seconds =
            (start <- process_time a seconds ;;
             end_ <- process_time b seconds ;;
             if (start =? DELETED)%string then
               if (end_ =? DELETED)%string then Ok DELETED
               else Ok ("00:00:00.000 --> " ++ end_)
             else Ok (start ++ " --> " ++ end_))).
  { intros p t P.
    rewrite process_line_long by (rewrite !length_append; lia).
    rewrite (substring_exact a _ 12 A).
    replace 17%nat with (String.length a + (String.length p + 0))%nat by lia.
    rewrite !substring_skip.
    now rewrite (substring_exact b _ 12 B). }
  now rewrite (F sep tail S), (F sep' tail' S').
Qed.

Lemma process_line_reads_two_fields_witness :
  process_line ("00:00:01.913" ++ "     " ++ "00:00:04.328" ++ " x") half =
  process_line ("00:00:01.913" ++ " --> " ++ "00:00:04.328" ++ "") half.
Proof.
  apply (process_line_reads_two_fields
           "00:00:01.913" "     " "00:00:04.328" " x" " --> " "" half);
    reflexivity.
Defined.

(** * Where the run can panic *)

Lemma process_time_no_panic (t : string) (incr : float64.t) :
  (12 <= String.length t)%nat -> process_time t incr <> Panic.
Proof.
  intros L. unfold process_time, parse_time.
  rewrite (slice_ok t 0 2), (slice_ok t 3 5), (slice_ok t 6 12) by lia.
  cbn [bind].
  destruct (strconv.Atoi (substring 0 (2 - 0) t)); cbn [or_fatal bind];
    [|discriminate].
  destruct (strconv.Atoi (substring 3 (5 - 3) t)); cbn [or_fatal bind];
    [|discriminate].
  destruct (strconv.ParseFloat (substring 6 (12 - 6) t));
    cbn [float_or_fatal bind]; try discriminate.
  destruct (_ >=? 0); [|discriminate].
  now rewrite render_time_ok.
Qed.

(** [process_line] panics on lines shorter than 29 bytes only. *)
Lemma process_line_panic (line : string) (seconds : float64.t) :
  process_line line seconds = Panic -> (String.length line < 29)%nat.
Proof.
  intros P.
  destruct (Nat.lt_ge_cases (String.length line) 29) as [L|L]; [exact L|].
  exfalso. rewrite (process_line_long _ _ L) in P.
  pose proof (process_time_no_panic (substring 0 12 line) seconds) as N1.
  pose proof (process_time_no_panic (substring 17 12 line) seconds) as N2.
  rewrite length_substring in N1, N2 by lia.
  destruct (process_time (substring 0 12 line) seconds) as [s| | |];
    cbn [bind] in P; try discriminate; [|now apply N1].
  destruct (process_time (substring 17 12 line) seconds) as [e| | |];
    cbn [bind] in P; try discriminate; [|now apply N2].
  destruct (s =? DELETED)%string; [destruct (e =? DELETED)%string|];
    discriminate.
Qed.

(** * Time lines in the loops *)

Lemma vtt_line_time_step (seconds : float64.t) (st : conv) (l : string) :
  regexp.MatchString re_vtt l = true ->
  vtt_line seconds st l =
    (t <- process_line l seconds ;; Ok (time_step st t t)).
Proof.
  intros M. unfold vtt_line. now rewrite M.
Qed.

Lemma srt_line_time_step (seconds : float64.t) (st : conv) (l : string) :
  regexp.MatchString re_srt l = true ->
  srt_line seconds st l =
    (t <- process_line (to_period l) seconds ;;
     Ok (time_step st t (if (t =? DELETED)%string then t else to_comma t))).
Proof.
  intros M. unfold srt_line. rewrite M. cbv zeta.
  fold (to_period l).
  destruct (process_line (to_period l) seconds) as [t| | |]; try reflexivity.
  cbn [bind]. unfold time_step.
  destruct (t =? DELETED)%string; reflexivity.
Qed.

Lemma length_Replace (s : string) (old new : ascii) :
  forall n, String.length (strings.Replace s old new n) = String.length s.
Proof.
  induction s as [|c s IH]; intros n; [reflexivity|].
  destruct n as [|n]; [reflexivity|]. cbn [strings.Replace].
  destruct (c =? old)%char; cbn [String.length]; now rewrite IH.
Qed.

Lemma deleted_lines_range (re : regexp.t) (prepare : string -> string)
  (seconds : float64.t) (lines : list string) :
  0 <= deleted_lines re prepare seconds lines
    <= Z.of_nat (List.length lines).
Proof.
  induction lines as [|l lines IH]; [simpl; lia|].
  cbn [deleted_lines List.length]. rewrite Nat2Z.inj_succ.
  destruct (regexp.MatchString re l); [|lia].
  destruct (process_line (prepare l) seconds) as [t| | |]; try lia.
  destruct (t =? DELETED)%string; lia.
Qed.

Section Rewriting.

Variable seconds : float64.t.
Variable re : regexp.t.
Variable prepare finish : string -> string.
Variable step : conv -> string -> result conv.

Hypothesis step_other :
  forall st l, regexp.MatchString re l = false ->
               step st l = Ok (pass_or_skip st l).

Hypothesis step_time :
  forall st l, regexp.MatchString re l = true ->
    step st l =
      (t <- process_line (prepare l) seconds ;;
       Ok (time_step st t (if (t =? DELETED)%string then t else finish t))).

Hypothesis prepare_length :
  forall l, String.length (prepare l) = String.length l.

(** The count grows by one at each time line for which [process_line]
    returns the sentinel, and at no other line. *)
Lemma run_lines_count (lines : list string) :
  forall st st',
  0 <= deleted_subs st ->
  deleted_subs st + Z.of_nat (List.length lines) <= int64.max ->
  run_lines step st lines = Ok st' ->
  deleted_subs st' =
    deleted_subs st + deleted_lines re prepare seconds lines.
Proof.
  induction lines as [|l lines IH]; intros st st' P B R.
  - cbn in R. injection R as <-. simpl. lia.
  - cbn [run_lines] in R. apply bind_ok_inv in R.
    destruct R as [st1 [S R]].
    cbn [List.length] in B. rewrite Nat2Z.inj_succ in B.
    cbn [deleted_lines].
    destruct (regexp.MatchString re l) eqn:M.
    + rewrite (step_time _ _ M) in S. apply bind_ok_inv in S.
      destruct S as [t [T S]]. injection S as <-. rewrite T.
      unfold time_step in *.
      destruct (t =? DELETED)%string.
      * assert (D : int64.add (deleted_subs st) 1 = deleted_subs st + 1).
        { unfold int64.add. apply wrap_small.
          unfold int64.min, int64.max in *. lia. }
        rewrite (fun p b => IH _ _ p b R);
          unfold WriteString; cbn [deleted_subs]; lia.
      * rewrite (fun p b => IH _ _ p b R);
          unfold WriteString; cbn [deleted_subs]; lia.
    + rewrite (step_other _ _ M) in S. injection S as <-.
      assert (D : deleted_subs (pass_or_skip st l) = deleted_subs st).
      { unfold pass_or_skip, WriteString.
        destruct (skip st); [destruct (l =? "")%string|]; reflexivity. }
      rewrite (fun p b => IH _ _ p b R); rewrite D; lia.
Qed.


(** The loop panics only at a line that matches the time pattern and
    is shorter than 29 bytes. *)
Lemma run_lines_panic (lines : list string) :
  forall st, run_lines step st lines = Panic ->
  exists l, In l lines /\ regexp.MatchString re l = true /\
            (String.length l < 29)%nat.
Proof.
  induction lines as [|l lines IH]; intros st R; [discriminate|].
  cbn [run_lines] in R.
  destruct (regexp.MatchString re l) eqn:M.
  - rewrite (step_time _ _ M) in R.
    destruct (process_line (prepare l) seconds) as [t| | |] eqn:P;
      cbn [bind] in R; try discriminate.
    + destruct (IH _ R) as [x [I X]]. exists x. split; [now right|exact X].
    + exists l. split; [now left|]. split; [exact M|].
      rewrite <- prepare_length. now apply process_line_panic in P.
  - rewrite (step_other _ _ M) in R. cbn [bind] in R.
    destruct (IH _ R) as [x [I X]]. exists x. split; [now right|exact X].
Qed.

(** A block whose time line is deleted leaves the sentinel and one
    empty line in the output, whatever its captions. *)
Lemma run_lines_deleted_block (l : string) (caps rest : list string) :
  regexp.MatchString re l = true ->
  regexp.MatchString re "" = false ->
  process_line (prepare l) seconds = Ok DELETED ->
  Forall (caption re) caps ->
  forall st,
  run_lines step st (l :: caps ++ "" :: rest) =
  run_lines step
    (mkconv (int64.add (deleted_subs st) 1) false
            (output st ++ DELETED ++ newline))
    rest.
Proof.
  intros M E P C st. cbn [run_lines].
  rewrite (step_time _ _ M), P. cbn [bind].
  unfold time_step. rewrite String.eqb_refl.
  rewrite (run_lines_skip re step step_other caps rest C) by reflexivity.
  rewrite E. reflexivity.
Qed.

End Rewriting.

(** * The converters *)

Lemma convert_run (d : dialect) (lines : list string) (seconds : float64.t) :
  convert d lines seconds =
    (st <- run_lines (loop_body d seconds) conv_init lines ;;
     Ok (deleted_subs st, output st)).
Proof. destruct d; reflexivity. Qed.

Lemma loop_body_other (d : dialect) (seconds : float64.t) :
  forall st l, regexp.MatchString (pattern d) l = false ->
               loop_body d seconds st l = Ok (pass_or_skip st l).
Proof.
  destruct d; intros st l M;
    [apply vtt_line_other | apply srt_line_other]; exact M.
Qed.

Lemma loop_body_time (d : dialect) (seconds : float64.t) :
  forall st l, regexp.MatchString (pattern d) l = true ->
    loop_body d seconds st l =
      (t <- process_line (prepared d l) seconds ;;
       Ok (time_step st t
             (if (t =? DELETED)%string then t else finished d t))).
Proof.
  destruct d; intros st l M.
  - cbn [loop_body prepared finished].
    rewrite (vtt_line_time_step _ _ _ M).
    destruct (process_line l seconds) as [t| | |]; try reflexivity.
    cbn [bind]. now destruct (t =? DELETED)%string.
  - apply srt_line_time_step, M.
Qed.

Lemma prepared_length (d : dialect) (l : string) :
  String.length (prepared d l) = String.length l.
Proof. destruct d; [reflexivity | apply length_Replace]. Qed.

Lemma pattern_not_empty (d : dialect) :
  regexp.MatchString (pattern d) "" = false.
Proof. destruct d; reflexivity. Qed.



(** X4.  The count that a converter returns is the number of its time
    lines for which [process_line] returned the sentinel; it lies
    between zero and the number of lines. *)
Theorem convert_counts_deleted_lines (d : dialect) (lines : list string)
  (seconds : float64.t) (n : Z) (out : string) :
  Z.of_nat (List.length lines) <= int64.max ->
  convert d lines seconds = Ok (n, out) ->
  n = deleted_lines (pattern d) (prepared d) seconds lines /\
  0 <= n <= Z.of_nat (List.length lines).
Proof.
  intros B R. rewrite convert_run in R.
  apply bind_ok_inv in R. destruct R as [st [R E]].
  injection E as <- <-.
  pose proof (run_lines_count seconds (pattern d) (prepared d) (finished d)
                (loop_body d seconds) (loop_body_other d seconds)
                (loop_body_time d seconds) lines conv_init st
                ltac:(simpl; lia) ltac:(simpl; lia) R) as C.
  cbn [conv_init deleted_subs] in C. rewrite Z.add_0_l in C.
  split; [exact C|]. rewrite C. apply deleted_lines_range.
Qed.

Lemma convert_counts_deleted_lines_witness :
  1 = deleted_lines re_srt to_period minus5 example2 /\
  0 <= 1 <= Z.of_nat (List.length example2).
Proof.
  apply (convert_counts_deleted_lines Srt example2 minus5 1
           (unlines ["1"; "(DELETED)"; ""; "2";
                     "00:00:05,000 --> 00:00:07,000"; "Bye"; ""])).
  - vm_compute. discriminate.
  - vm_compute. reflexivity.
Defined.



(** X6.  A converter panics only when the file holds a line that matches
    the time pattern and is shorter than 29 bytes. *)
Theorem convert_panics_on_short_time_line (d : dialect)
  (lines : list string) (seconds : float64.t) :
  convert d lines seconds = Panic ->
  exists l, In l lines /\ regexp.MatchString (pattern d) l = true /\
            (String.length l < 29)%nat.
Proof.
  intros R. rewrite convert_run in R.
  destruct (run_lines (loop_body d seconds) conv_init lines)
    as [st| | |] eqn:E; try discriminate.
  exact (run_lines_panic seconds (pattern d) (prepared d) (finished d)
           (loop_body d seconds) (loop_body_other d seconds)
           (loop_body_time d seconds) (prepared_length d) lines conv_init E).
Qed.

Lemma convert_panics_on_short_time_line_witness :
  exists l, In l ["1"; "00:00:00.000"] /\
            regexp.MatchString re_vtt l = true /\ (String.length l < 29)%nat.
Proof.
  apply (convert_panics_on_short_time_line Vtt ["1"; "00:00:00.000"] fzero).
  reflexivity.
Defined.

(** X7.  In any state of the loop, a block made of a time line for which
    [process_line] returns the sentinel, its caption lines and the
    empty line that ends it puts the sentinel and one empty line in the
    output, counts one deleted subtitle and leaves the loop ready for
    the next block. *)
Theorem deleted_block (d : dialect) (seconds : float64.t)
  (l : string) (caps rest : list string) (st : conv) :
  regexp.MatchString (pattern d) l = true ->
  process_line (prepared d l) seconds = Ok DELETED ->
  Forall (caption (pattern d)) caps ->
  run_lines (loop_body d seconds) st (l :: caps ++ "" :: rest) =
  run_lines (loop_body d seconds)
    (mkconv (int64.add (deleted_subs st) 1) false
            (output st ++ DELETED ++ newline))
    rest.
Proof.
  intros M P C.
  exact (run_lines_deleted_block seconds (pattern d) (prepared d)
           (finished d) (loop_body d seconds) (loop_body_other d seconds)
           (loop_body_time d seconds) l caps rest M
           (pattern_not_empty d) P C st).
Qed.

Lemma deleted_block_witness :
  run_lines (srt_line minus5) conv_init
    ("00:00:02,000 --> 00:00:04,000" :: ["Hi"; "there"] ++ "" :: ["2"]) =
  run_lines (srt_line minus5)
    (mkconv (int64.add 0 1) false ("" ++ DELETED ++ newline)) ["2"].
Proof.
  apply (deleted_block Srt minus5 "00:00:02,000 --> 00:00:04,000"
           ["Hi"; "there"] ["2"] conv_init).
  - reflexivity.
  - vm_compute. reflexivity.
  - repeat constructor; discriminate.
Defined.

(** * The decimal separator of the lines written *)

Lemma count_byte_append (c : ascii) (a b : string) :
  count_byte c (a ++ b) = (count_byte c a + count_byte c b)%nat.
Proof.
  induction a as [|x a IH]; [reflexivity|].
  cbn [append count_byte]. rewrite IH. lia.
Qed.

Lemma count_byte_digits (c : ascii) (s : string) :
  is_digit c = false -> all_chars is_digit s = true ->
  count_byte c s = 0%nat.
Proof.
  intros C. induction s as [|x s IH]; [reflexivity|].
  cbn [all_chars count_byte]. intros A.
  apply andb_true_iff in A. destruct A as [X A].
  destruct (Ascii.eqb_spec x c) as [->|_]; [congruence|].
  now rewrite IH.
Qed.

Lemma all_chars_append (p : ascii -> bool) (a b : string) :
  all_chars p (a ++ b) = all_chars p a && all_chars p b.
Proof.
  induction a as [|x a IH]; [reflexivity|].
  cbn [append all_chars]. now rewrite IH, andb_assoc.
Qed.

Lemma repeat_char_digits (n : nat) :
  all_chars is_digit (repeat_char "0" n) = true.
Proof. induction n as [|n IH]; [reflexivity | exact IH]. Qed.

Lemma digits_of_digits (w : nat) (n : Z) :
  all_chars is_digit (digits_of w n) = true.
Proof.
  unfold digits_of, fmt.pad_left.
  rewrite all_chars_append, repeat_char_digits.
  apply (utoa_digit_run n).
Qed.

(** A written time holds one period, and no byte that is neither a
    digit, a colon nor a period. *)
Lemma count_byte_time_text (c : ascii) (ms : Z) :
  is_digit c = false -> (c =? ":")%char = false ->
  count_byte c (time_text ms) = if (c =? ".")%char then 1%nat else 0%nat.
Proof.
  intros D C. unfold time_text.
  rewrite !count_byte_append.
  rewrite !(count_byte_digits c _ D (digits_of_digits _ _)).
  cbn [count_byte]. rewrite (Ascii.eqb_sym ":" c), C.
  rewrite (Ascii.eqb_sym "." c).
  destruct (c =? ".")%char; reflexivity.
Qed.

Lemma process_time_ok_form (t : string) (incr : float64.t) (a : string) :
  process_time t incr = Ok a ->
  a = DELETED \/ exists ms, a = time_text ms.
Proof.
  intros H.
  destruct (process_time_ok_inv _ _ _ H) as (hrs & mins & secs & P).
  rewrite (process_time_parsed _ _ _ _ _ P) in H.
  destruct (Z.geb_spec (shifted_time hrs mins secs incr) 0) as [G|G];
    injection H as <-; [right | now left].
  eexists. apply rendered_time_text.
  pose proof (shifted_time_range hrs mins secs incr). lia.
Qed.

Lemma process_line_ok_form (line : string) (seconds : float64.t) (t : string) :
  process_line line seconds = Ok t ->
  exists a b,
    process_time (substring 0 12 line) seconds = Ok a /\
    process_time (substring 17 12 line) seconds = Ok b /\
    t = if (a =? DELETED)%string
        then if (b =? DELETED)%string then DELETED
             else "00:00:00.000 --> " ++ b
        else a ++ " --> " ++ b.
Proof.
  intros H. pose proof (process_line_ok_length _ _ _ H) as L.
  rewrite (process_line_long _ _ L) in H.
  apply bind_ok_inv in H. destruct H as [a [A H]].
  apply bind_ok_inv in H. destruct H as [b [B H]].
  exists a, b. split; [exact A|]. split; [exact B|].
  destruct (a =? DELETED)%string; [destruct (b =? DELETED)%string|];
    now injection H as <-.
Qed.

(** What [process_line] returns holds no comma and at most two
    periods. *)
Lemma process_line_separators (line : string) (seconds : float64.t)
  (t : string) :
  process_line line seconds = Ok t ->
  count_byte "," t = 0%nat /\ (count_byte "." t <= 2)%nat.
Proof.
  intros H.
  destruct (process_line_ok_form _ _ _ H) as (a & b & A & B & ->).
  assert (F : forall x, x = DELETED \/ (exists ms, x = time_text ms) ->
              count_byte "," x = 0%nat /\ (count_byte "." x <= 1)%nat).
  { intros x [-> | [ms ->]]; [split; [reflexivity | cbn; lia]|].
    rewrite !count_byte_time_text by reflexivity. cbn. lia. }
  destruct (F a (process_time_ok_form _ _ _ A)) as [A1 A2].
  destruct (F b (process_time_ok_form _ _ _ B)) as [B1 B2].
  destruct (a =? DELETED)%string; [destruct (b =? DELETED)%string|].
  - split; [reflexivity | cbn; lia].
  - rewrite !count_byte_append, B1. cbn [count_byte Ascii.eqb Bool.eqb].
    cbn. lia.
  - rewrite !count_byte_append, A1, B1.
    cbn [append count_byte]. cbn. lia.
Qed.

Lemma count_byte_Replace (old new : ascii) (s : string) :
  old <> new ->
  forall n, count_byte old (strings.Replace s old new n)
            = (count_byte old s - n)%nat.
Proof.
  intros N. induction s as [|x s IH]; intros n; [reflexivity|].
  destruct n as [|n]; [cbn [strings.Replace]; lia|].
  cbn [strings.Replace count_byte].
  destruct (Ascii.eqb_spec x old) as [->|X].
  - cbn [count_byte]. destruct (Ascii.eqb_spec new old); [congruence|].
    rewrite IH. lia.
  - cbn [count_byte]. destruct (Ascii.eqb_spec x old); [congruence|].
    rewrite IH. lia.
Qed.

Lemma count_byte_Replace_other (c old new : ascii) (s : string) :
  c <> old -> c <> new ->
  forall n, count_byte c (strings.Replace s old new n) = count_byte c s.
Proof.
  intros O N. induction s as [|x s IH]; intros n; [reflexivity|].
  destruct n as [|n]; [reflexivity|].
  cbn [strings.Replace count_byte].
  destruct (Ascii.eqb_spec x old) as [->|X]; cbn [count_byte];
    rewrite IH.
  - destruct (Ascii.eqb_spec old c), (Ascii.eqb_spec new c); congruence.
  - reflexivity.
Qed.

(** X8.  The line that a converter writes for a time line holds no
    decimal separator of the other dialect: no period in an .srt file,
    no comma in a .vtt file. *)
Theorem time_line_keeps_dialect (d : dialect) (seconds : float64.t)
  (st st' : conv) (l : string) :
  regexp.MatchString (pattern d) l = true ->
  loop_body d seconds st l = Ok st' ->
  exists out,
    output st' = output st ++ out ++ newline /\
    count_byte (foreign_separator d) out = 0%nat.
Proof.
  intros M R. rewrite (loop_body_time d seconds st l M) in R.
  apply bind_ok_inv in R. destruct R as [t [P R]]. injection R as <-.
  destruct (process_line_separators _ _ _ P) as [C1 C2].
  unfold time_step, WriteString.
  exists (if (t =? DELETED)%string then t else finished d t).
  split; [now destruct (t =? DELETED)%string|].
  destruct (String.eqb_spec t DELETED) as [->|_]; [now destruct d|].
  destruct d; cbn [foreign_separator finished]; [exact C1|].
  unfold to_comma. rewrite count_byte_Replace by discriminate. lia.
Qed.

Lemma time_line_keeps_dialect_witness :
  exists out,
    output (WriteString conv_init ("00:00:05,000 --> 00:00:07,000" ++ newline))
      = output conv_init ++ out ++ newline /\
    count_byte "." out = 0%nat.
Proof.
  apply (time_line_keeps_dialect Srt minus5 conv_init _
           "00:00:10,000 --> 00:00:12,000").
  - reflexivity.
  - vm_compute. reflexivity.
Defined.

(** * Where name_output slices *)

Lemma match_here_length (re : regexp.t) (s r : string) :
  regexp.match_here re s = Some r -> (String.length r <= String.length s)%nat.
Proof.
  intros H. destruct (match_here_sound _ _ _ H) as [w [-> _]].
  rewrite length_append. lia.
Qed.

(** The span that [FindStringIndex] returns lies within the text, and
    the text is made of what precedes the span, a match of the pattern
    and what follows the span. *)
Lemma find_from_span (re : regexp.t) (s : string) :
  forall i a b, regexp.find_from re s i = Some (a, b) ->
  exists pre w post,
    s = pre ++ w ++ post /\ regexp.matches re w /\
    a = (i + String.length pre)%nat /\ b = (a + String.length w)%nat.
Proof.
  induction s as [|c s IH]; intros i a b H; cbn [regexp.find_from] in H.
  - destruct (regexp.match_here re "") as [r|] eqn:E; [|discriminate].
    injection H as <- <-.
    destruct (match_here_sound _ _ _ E) as [w [Hw M]].
    pose proof (f_equal String.length Hw) as L.
    rewrite length_append in L. cbn [String.length] in L.
    exists "", w, r. cbn [append String.length].
    repeat split; try assumption; lia.
  - destruct (regexp.match_here re (String c s)) as [r|] eqn:E.
    + injection H as <- <-.
      destruct (match_here_sound _ _ _ E) as [w [Hw M]].
      pose proof (f_equal String.length Hw) as L.
      rewrite length_append in L.
      exists "", w, r. cbn [append].
      cbn [String.length] in L.
      repeat split; try assumption; cbn [String.length];
        destruct (String.length r); lia.
    + destruct (IH _ _ _ H) as (pre & w & post & -> & M & -> & ->).
      exists (String c pre), w, post. cbn [append String.length].
      repeat split; try assumption; lia.
Qed.

Lemma slice_from_span (pre w post : string) :
  slice_from (pre ++ w ++ post)
    (0 + String.length pre + String.length w) = Ok post.
Proof.
  rewrite <- append_assoc.
  replace (0 + String.length pre + String.length w)%nat
    with (String.length ((pre ++ w) ++ post) - String.length post)%nat
    by (rewrite !length_append; lia).
  apply slice_from_suffix.
Qed.

(** X9.  [name_output] never panics: the end of the tag that it found is
    within the name, and the placeholder from which it drops the first
    byte is never empty. *)
Theorem name_output_never_panics (inputfile : string) (seconds : float64.t) :
  name_output inputfile seconds <> Panic.
Proof.
  unfold name_output, regexp.MatchString, regexp.FindStringIndex.
  destruct (regexp.find_from proc inputfile 0) as [[a b]|] eqn:E.
  - destruct (find_from_span _ _ _ _ _ E) as (pre & w & post & -> & _ & -> & ->).
    destruct (strconv.ParseFloat _) as [v| |];
      cbn [float_or_fatal bind]; try discriminate.
    rewrite slice_from_span. cbn [bind].
    destruct (float64.geb _ fzero).
    + cbn [append]. rewrite slice_from_tail. cbn [bind].
      destruct (fmt.Sprintf _ _); discriminate.
    + cbn [bind]. destruct (fmt.Sprintf _ _); discriminate.
  - cbn [bind].
    destruct (float64.geb seconds fzero).
    + cbn [append]. rewrite slice_from_tail. cbn [bind].
      destruct (fmt.Sprintf _ _); discriminate.
    + cbn [bind]. destruct (fmt.Sprintf _ _); discriminate.
Qed.

(** * The extension of the new name *)










(** * name_output applied to its own result *)

Lemma pow10_300 : 10 ^ 300 < 2 ^ 1023.
Proof. vm_compute. reflexivity. Qed.

Lemma tag_number_shape (offset : float64.t) :
  float64.is_finite offset = true -> offset <> S754_zero true ->
  exists sg a b,
    is_sign sg = true /\ digit_run a /\ digit_run b /\
    tag_number offset = String sg (a ++ "." ++ b) /\
    tag_of offset = String "{" (String sg (a ++ "." ++ b ++ "_Sec}_")) /\
    (String.length (a ++ b) <= String.length (fmt.verb_f 0 2 offset))%nat.
Proof.
  intros F N.
  destruct (verb_f_two_decimals offset F) as (ip & d1 & d2 & R & D1 & D2 & E).
  assert (B : digit_run (String d1 (String d2 ""))).
  { split; [discriminate|]. cbn [all_chars]. now rewrite D1, D2. }
  unfold tag_number, tag_of. rewrite E.
  assert (L : forall s, (String.length (ip ++ String d1 (String d2 ""))
                         <= String.length (s ++ ip ++ "."
                                           ++ String d1 (String d2 "")))%nat).
  { intros s. rewrite !length_append. cbn [String.length]. lia. }
  destruct (float64.geb offset fzero) eqn:G.
  - destruct (sign_bit offset) eqn:S.
    + exfalso. destruct offset as [[|]|[|]| |[|] m e];
        try discriminate; now apply N.
    + exists "+"%char, ip, (String d1 (String d2 "")).
      split; [reflexivity|]. split; [exact R|]. split; [exact B|].
      split; [reflexivity|]. split; [|apply L].
      cbn [append]. do 2 f_equal. now rewrite !append_assoc.
  - rewrite (negative_sign_bit offset F G).
    exists "-"%char, ip, (String d1 (String d2 "")).
    split; [reflexivity|]. split; [exact R|]. split; [exact B|].
    split; [reflexivity|]. split; [|apply L].
    cbn [append]. do 2 f_equal. now rewrite !append_assoc.
Qed.

(** X11.  Applied to its own result, [name_output] replaces the tag
    instead of adding a second one: the name it returns is the tag of
    the number read from the first tag (the first offset as [%.2f]
    wrote it) plus the second offset, in front of the original name.
    The first offset is finite, is not the negative zero, whose tag
    [{+-0.00_Sec}_] the pattern does not accept, and its number is
    written in at most 300 bytes. *)
Theorem name_output_twice (inputfile : string) (o1 o2 : float64.t) :
  regexp.MatchString proc inputfile = false ->
  has_percent inputfile = false ->
  float64.is_finite o1 = true -> o1 <> S754_zero true ->
  (String.length (fmt.verb_f 0 2 o1) <= 300)%nat ->
  exists v,
    strconv.ParseFloat (tag_number o1) = strconv.Value v /\
    name_output inputfile o1 = Ok (tag_of o1 ++ inputfile) /\
    name_output (tag_of o1 ++ inputfile) o2
      = Ok (tag_of (float64.add v o2) ++ inputfile).
Proof.
  intros M H F N L.
  destruct (tag_number_shape o1 F N)
    as (sg & a & b & S & A & B & EN & ET & LE).
  assert (D : dec 0 (a ++ b) < 2 ^ 1023).
  { destruct A as [_ A]. destruct B as [_ B].
    assert (AB : all_chars is_digit (a ++ b) = true)
      by (rewrite all_chars_append; now rewrite A, B).
    pose proof (dec_range (a ++ b) AB 0 ltac:(lia)) as R.
    apply Z.lt_trans with (10 ^ 300); [|exact pow10_300].
    apply Z.lt_le_trans with (10 ^ Z.of_nat (String.length (a ++ b)));
      [lia|].
    apply Z.pow_le_mono_r; lia. }
  pose proof (ParseFloat_signed sg a b S A (proj2 B) D) as P.
  eexists. rewrite EN. split; [exact P|].
  split.
  - rewrite (name_output_unprocessed _ _ M H). unfold tag_of.
    now rewrite !append_assoc.
  - rewrite ET.
    rewrite (name_output_retag sg a b inputfile o2 _ S A B H P).
    unfold tag_of. now rewrite !append_assoc.
Qed.

Lemma name_output_twice_witness :
  exists v,
    strconv.ParseFloat (tag_number f2_5) = strconv.Value v /\
    name_output "movie.srt" f2_5 = Ok (tag_of f2_5 ++ "movie.srt") /\
    name_output (tag_of f2_5 ++ "movie.srt") half
      = Ok (tag_of (float64.add v half) ++ "movie.srt").
Proof.
  apply (name_output_twice "movie.srt" f2_5 half).
  - reflexivity.
  - reflexivity.
  - reflexivity.
  - discriminate.
  - vm_compute. repeat constructor.
Defined.

(** * Further facts on time codes and time lines *)

(** X12.  On a time code [process_time] never stops the run: it returns
    the sentinel when the shifted time is negative, and otherwise the
    time of day of the shifted milliseconds, which below a hundred
    hours is a time code again. *)
Theorem process_time_on_time_code (t : string) (incr : float64.t) :
  is_time_code t = true ->
  (shifted_of t incr < 0 -> process_time t incr = Ok DELETED) /\
  (0 <= shifted_of t incr ->
   process_time t incr
     = Ok (time_text (shifted_of t incr / time.Millisecond)) /\
   (shifted_of t incr < 100 * time.Hour ->
    is_time_code (time_text (shifted_of t incr / time.Millisecond)) = true)).
Proof.
  intros H. rewrite (process_time_time_code t incr H).
  split.
  - intros N. destruct (Z.geb_spec (shifted_of t incr) 0); [lia|reflexivity].
  - intros N. split.
    + destruct (Z.geb_spec (shifted_of t incr) 0); [reflexivity|lia].
    + intros B. apply time_text_layout.
      unfold time.Hour, time.Millisecond in *.
      Z.div_mod_to_equations; lia.
Qed.

Lemma process_time_on_time_code_witness :
  process_time "00:00:01.913" minus5 = Ok DELETED.
Proof.
  apply (proj1 (process_time_on_time_code "00:00:01.913" minus5 eq_refl)).
  vm_compute. reflexivity.
Defined.

(** X13.  Without wrap-around the shifted time is the sum of the hours,
    the minutes, the truncated milliseconds of the seconds and the
    truncated milliseconds of the offset; there is no wrap-around as
    long as both counts of milliseconds are within 4e12 and the hours
    and minutes within 1000. *)
Theorem shifted_time_exact (hrs mins : Z) (secs incr : float64.t) :
  -1000 <= hrs <= 1000 -> -1000 <= mins <= 1000 ->
  Z.abs (float64.to_int64 (float64.mul secs f1000)) <= 4000000000000 ->
  Z.abs (float64.to_int64 (float64.mul incr f1000)) <= 4000000000000 ->
  shifted_time hrs mins secs incr =
    (hrs * 3600000 + mins * 60000
     + float64.to_int64 (float64.mul secs f1000)
     + float64.to_int64 (float64.mul incr f1000)) * time.Millisecond.
Proof.
  intros H M S D. rewrite shifted_time_sum.
  rewrite wrap_small;
    unfold int64.min, int64.max, time.Hour, time.Minute, time.Millisecond;
    lia.
Qed.

Lemma shifted_time_exact_witness :
  shifted_time 1 2 secs4 minus5 =
    (1 * 3600000 + 2 * 60000
     + float64.to_int64 (float64.mul secs4 f1000)
     + float64.to_int64 (float64.mul minus5 f1000)) * time.Millisecond.
Proof.
  apply (shifted_time_exact 1 2 secs4 minus5); try lia;
    vm_compute; discriminate.
Defined.

(** * The time pattern *)

Lemma is_time_code_of_inv (sep : ascii) (t : string) :
  is_time_code_of sep t = true ->
  exists h1 h2 m1 m2 s1 s2 f1 f2 f3,
    t = String h1 (String h2 (String ":" (String m1 (String m2 (String ":"
          (String s1 (String s2 (String sep (String f1 (String f2
          (String f3 ""))))))))))) /\
    is_digit h1 = true /\ is_digit h2 = true /\
    is_digit m1 = true /\ is_digit m2 = true /\
    is_digit s1 = true /\ is_digit s2 = true /\
    is_digit f1 = true /\ is_digit f2 = true /\ is_digit f3 = true.
Proof.
  unfold is_time_code_of. intros H.
  repeat (apply andb_true_iff in H; destruct H as [H ?]).
  match goal with L : (String.length t =? 12)%nat = true |- _ =>
    apply Nat.eqb_eq in L end.
  do 12 (destruct t as [|? t]; [discriminate|]).
  destruct t; [|discriminate].
  cbn [substring] in *.
  repeat match goal with
         | E : two_digits _ = true |- _ =>
             cbn [two_digits] in E; apply andb_true_iff in E; destruct E
         | E : three_digits _ = true |- _ =>
             cbn [three_digits] in E; apply andb_true_iff in E;
             destruct E as [E ?]; apply andb_true_iff in E; destruct E
         | E : (String _ "" =? String _ "")%string = true |- _ =>
             apply String.eqb_eq in E; injection E as ->
         end.
  do 9 eexists. split; [reflexivity|]. tauto.
Qed.

Lemma matches_digit_inv (re : regexp.t) (w : string) :
  regexp.matches (regexp.digit :: re) w ->
  exists c w', w = String c w' /\ is_digit c = true /\ regexp.matches re w'.
Proof. apply matches_one_inv. Qed.

(** The time pattern denotes the time codes of its separator. *)
Lemma re_time_matches_iff (sep : ascii) (t : string) :
  regexp.matches (re_time sep) t <-> is_time_code_of sep t = true.
Proof.
  unfold re_time. split.
  - intros H.
    apply matches_digit_inv in H. destruct H as (h1 & w0 & -> & H1 & H).
    apply matches_digit_inv in H. destruct H as (h2 & w1 & -> & H2 & H).
    apply matches_byte_inv in H. destruct H as (w2 & -> & H).
    apply matches_digit_inv in H. destruct H as (m1 & w3 & -> & M1 & H).
    apply matches_digit_inv in H. destruct H as (m2 & w4 & -> & M2 & H).
    apply matches_byte_inv in H. destruct H as (w5 & -> & H).
    apply matches_digit_inv in H. destruct H as (s1 & w6 & -> & S1 & H).
    apply matches_digit_inv in H. destruct H as (s2 & w7 & -> & S2 & H).
    apply matches_byte_inv in H. destruct H as (w8 & -> & H).
    apply matches_digit_inv in H. destruct H as (f1 & w9 & -> & F1 & H).
    apply matches_digit_inv in H. destruct H as (f2 & w10 & -> & F2 & H).
    apply matches_digit_inv in H. destruct H as (f3 & w11 & -> & F3 & H).
    apply matches_nil_inv in H. subst w11.
    unfold is_time_code_of.
    cbn [substring two_digits three_digits String.length Nat.eqb
         String.eqb].
    rewrite H1, H2, M1, M2, S1, S2, F1, F2, F3, !Ascii.eqb_refl.
    reflexivity.
  - intros H.
    destruct (is_time_code_of_inv sep t H)
      as (h1 & h2 & m1 & m2 & s1 & s2 & f1 & f2 & f3 & -> &
          H1 & H2 & M1 & M2 & S1 & S2 & F1 & F2 & F3).
    repeat first
      [ apply matches_byte_intro
      | apply regexp.matches_one; [assumption|]
      | apply regexp.matches_nil ].
Qed.

(** X14.  A converter takes a line for a time line exactly when a time
    code of its dialect occurs somewhere in the line, wherever that
    is. *)
Theorem time_line_iff_time_code_within (d : dialect) (l : string) :
  regexp.MatchString (pattern d) l = true <->
  contains (fun t => is_time_code_of (decimal_separator d) t = true) l.
Proof.
  rewrite MatchString_iff. unfold contains.
  assert (P : pattern d = re_time (decimal_separator d))
    by (destruct d; reflexivity).
  rewrite P.
  split; intros (pre & w & post & E & M); exists pre, w, post;
    (split; [exact E | now apply re_time_matches_iff]).
Qed.

Lemma time_line_iff_time_code_within_witness :
  regexp.MatchString re_srt "NOTE 00:00:01,000 is late" = true.
Proof.
  apply (proj2 (time_line_iff_time_code_within Srt
                  "NOTE 00:00:01,000 is late")).
  exists "NOTE ", "00:00:01,000", " is late". split; reflexivity.
Defined.

(** * Blocks that are kept *)

Lemma run_lines_app (step : conv -> string -> result conv)
  (a b : list string) :
  forall st, run_lines step st (a ++ b)%list =
             (st' <- run_lines step st a ;; run_lines step st' b).
Proof.
  induction a as [|l a IH]; intros st; [reflexivity|].
  cbn [app run_lines]. destruct (step st l); cbn [bind]; try reflexivity.
  apply IH.
Qed.

(** X15.  When the loop is not skipping, a block made of a time line that
    [process_line] keeps, its caption lines and the empty line that ends
    it puts the rewritten time line in the output, followed by the
    captions and the empty line as they are; the count stays. *)
Theorem kept_block (d : dialect) (seconds : float64.t)
  (l t : string) (caps rest : list string) (st : conv) :
  skip st = false ->
  regexp.MatchString (pattern d) l = true ->
  process_line (prepared d l) seconds = Ok t -> t <> DELETED ->
  Forall (caption (pattern d)) caps ->
  run_lines (loop_body d seconds) st (l :: caps ++ "" :: rest) =
  run_lines (loop_body d seconds)
    (mkconv (deleted_subs st) false
            (output st ++ unlines (finished d t :: caps ++ [""])))
    rest.
Proof.
  intros S M P N C. cbn [run_lines].
  rewrite (loop_body_time d seconds st l M), P. cbn [bind].
  apply String.eqb_neq in N. unfold time_step. rewrite N.
  replace (caps ++ "" :: rest)%list with ((caps ++ [""]) ++ rest)%list
    by (now rewrite <- app_assoc).
  rewrite run_lines_app.
  rewrite (run_lines_copy (pattern d) _ (loop_body_other d seconds)
             (caps ++ [""])).
  - cbn [bind]. unfold WriteString. cbn [deleted_subs output unlines].
    now rewrite !append_assoc.
  - apply Forall_app. split.
    + eapply Forall_impl; [|exact C]. now intros a [A _].
    + constructor; [apply pattern_not_empty | constructor].
  - unfold WriteString. exact S.
Qed.

Lemma kept_block_witness :
  run_lines (srt_line half) conv_init
    ("00:00:02,000 --> 00:00:04,000" :: ["Hi"; "there"] ++ "" :: ["2"]) =
  run_lines (srt_line half)
    (mkconv 0 false
       ("" ++ unlines ("00:00:02,500 --> 00:00:04,500"
                         :: ["Hi"; "there"] ++ [""]))) ["2"].
Proof.
  apply (kept_block Srt half "00:00:02,000 --> 00:00:04,000"
           "00:00:02.500 --> 00:00:04.500" ["Hi"; "there"] ["2"] conv_init).
  - reflexivity.
  - reflexivity.
  - vm_compute. reflexivity.
  - discriminate.
  - repeat constructor; discriminate.
Defined.

(** * The lines written are time lines again *)

Lemma Replace_zero (s : string) (old new : ascii) :
  strings.Replace s old new 0 = s.
Proof. now destruct s. Qed.

Lemma Replace_other (c : ascii) (s : string) (old new : ascii) (n : nat) :
  (c =? old)%char = false ->
  strings.Replace (String c s) old new (S n) =
    String c (strings.Replace s old new (S n)).
Proof. intros E. cbn [strings.Replace]. now rewrite E. Qed.

Lemma Replace_hit (s : string) (old new : ascii) (n : nat) :
  strings.Replace (String old s) old new (S n) =
    String new (strings.Replace s old new n).
Proof. cbn [strings.Replace]. now rewrite Ascii.eqb_refl. Qed.

Lemma digit_not_period (c : ascii) :
  is_digit c = true -> (c =? ".")%char = false.
Proof. by_bits c. Qed.

Lemma digit_not_comma (c : ascii) :
  is_digit c = true -> (c =? ",")%char = false.
Proof. by_bits c. Qed.

Ltac replace_step :=
  first
    [ rewrite Replace_zero
    | rewrite Replace_hit
    | rewrite Replace_other
        by first [ reflexivity
                 | apply digit_not_period; assumption
                 | apply digit_not_comma; assumption ] ].

(** The shape of a line made of two time codes and the arrow. *)
Lemma two_time_codes (a b : string) :
  is_time_code a = true -> is_time_code b = true ->
  let t := a ++ " --> " ++ b in
  is_time_line t = true /\
  regexp.MatchString re_vtt t = true /\
  to_period (to_comma t) = t /\
  regexp.MatchString re_srt (to_comma t) = true.
Proof.
  intros A B t.
  assert (LA : String.length a = 12%nat).
  { unfold is_time_code in A. apply andb_true_iff in A.
    destruct A as [_ A]. now apply Nat.eqb_eq in A. }
  assert (LB : String.length b = 12%nat).
  { unfold is_time_code in B. apply andb_true_iff in B.
    destruct B as [_ B]. now apply Nat.eqb_eq in B. }
  assert (T : is_time_line t = true).
  { unfold is_time_line, t.
    rewrite (substring_exact a _ 12 LA).
    replace 17%nat with (String.length a + (5 + 0))%nat by lia.
    rewrite substring_skip.
    change (substring (5 + 0) 12 (" --> " ++ b)) with (substring 0 12 b).
    rewrite <- LB at 1. rewrite substring_full, A, B.
    rewrite !length_append, LA, LB. reflexivity. }
  split; [exact T|]. split.
  { apply MatchString_iff. exists "", a, (" --> " ++ b).
    split; [reflexivity|]. apply (re_time_matches_iff "." a). exact A. }
  destruct (is_time_code_inv a A)
    as (h1 & h2 & m1 & m2 & s1 & s2 & f1 & f2 & f3 & Ea &
        H1 & H2 & M1 & M2 & S1 & S2 & F1 & F2 & F3).
  destruct (is_time_code_inv b B)
    as (h1' & h2' & m1' & m2' & s1' & s2' & f1' & f2' & f3' & Eb &
        H1' & H2' & M1' & M2' & S1' & S2' & F1' & F2' & F3').
  assert (C : to_comma t =
    String h1 (String h2 (String ":" (String m1 (String m2 (String ":"
      (String s1 (String s2 (String "," (String f1 (String f2
      (String f3 ""))))))))))) ++ " --> " ++
    String h1' (String h2' (String ":" (String m1' (String m2' (String ":"
      (String s1' (String s2' (String "," (String f1' (String f2'
      (String f3' "")))))))))))).
  { unfold t, to_comma. rewrite Ea, Eb. cbn [append].
    repeat replace_step. reflexivity. }
  split.
  - rewrite C. unfold t, to_period. rewrite Ea, Eb. cbn [append].
    repeat replace_step. reflexivity.
  - rewrite C. apply MatchString_iff.
    exists "",
      (String h1 (String h2 (String ":" (String m1 (String m2 (String ":"
        (String s1 (String s2 (String "," (String f1 (String f2
        (String f3 "")))))))))))),
      (" --> " ++
       String h1' (String h2' (String ":" (String m1' (String m2'
         (String ":" (String s1' (String s2' (String "," (String f1'
         (String f2' (String f3' "")))))))))))).
    split; [reflexivity|].
    apply (re_time_matches_iff ","). unfold is_time_code_of.
    cbn [substring two_digits three_digits String.length Nat.eqb
         String.eqb].
    rewrite H1, H2, M1, M2, S1, S2, F1, F2, F3, !Ascii.eqb_refl.
    reflexivity.
Qed.

Lemma zero_time_code : is_time_code "00:00:00.000" = true.
Proof. reflexivity. Qed.

Lemma line_text_shape (ns ne : Z) :
  ns < 100 * time.Hour -> 0 <= ne < 100 * time.Hour ->
  exists a b, is_time_code a = true /\ is_time_code b = true /\
              line_text ns ne = a ++ " --> " ++ b.
Proof.
  intros Bs [Be0 Be].
  assert (Q : forall n, 0 <= n < 100 * time.Hour ->
            is_time_code (time_text (n / time.Millisecond)) = true).
  { intros n Hn. apply time_text_layout.
    unfold time.Hour, time.Millisecond in *.
    Z.div_mod_to_equations; lia. }
  unfold line_text, written.
  destruct (Z.geb_spec ne 0) as [_|G]; [|lia].
  destruct (Z.ltb_spec ne 0) as [G|_]; [lia|].
  destruct (Z.ltb_spec ns 0) as [L|L].
  - exists "00:00:00.000", (time_text (ne / time.Millisecond)).
    split; [apply zero_time_code|]. split; [apply Q; lia|].
    generalize (time_text (ne / time.Millisecond)). reflexivity.
  - destruct (Z.geb_spec ns 0) as [_|G]; [|lia].
    exists (time_text (ns / time.Millisecond)),
      (time_text (ne / time.Millisecond)).
    split; [apply Q; lia|]. split; [apply Q; lia | reflexivity].
Qed.

Lemma time_line_not_DELETED (t : string) :
  is_time_line t = true -> (t =? DELETED)%string = false.
Proof.
  intros T. apply String.eqb_neq. intros ->. discriminate T.
Qed.

(** X16.  Below a hundred hours, the line that a converter writes for a
    time-range line whose end is not shifted below zero is a time-range
    line of the same dialect again: the converter takes it for a time
    line and reads two time codes from it. *)
Theorem written_line_is_time_line (d : dialect) (seconds : float64.t)
  (st : conv) (l : string) :
  regexp.MatchString (pattern d) l = true ->
  is_time_line (prepared d l) = true ->
  shifted_of (substring 0 12 (prepared d l)) seconds < 100 * time.Hour ->
  0 <= shifted_of (substring 17 12 (prepared d l)) seconds
    < 100 * time.Hour ->
  exists out,
    loop_body d seconds st l = Ok (WriteString st (out ++ newline)) /\
    regexp.MatchString (pattern d) out = true /\
    is_time_line (prepared d out) = true.
Proof.
  intros M T Bs Be.
  rewrite (loop_body_time d seconds st l M).
  rewrite (process_line_time_line _ seconds T).
  destruct (line_text_shape _ _ Bs Be) as (a & b & A & B & E).
  rewrite E. clear E.
  destruct (two_time_codes a b A B) as (T1 & V & R & S).
  pose proof (time_line_not_DELETED _ T1) as N.
  cbn [bind]. unfold time_step. rewrite N.
  exists (finished d (a ++ " --> " ++ b)).
  split; [reflexivity|].
  destruct d; cbn [pattern prepared finished].
  - split; [exact V | exact T1].
  - split; [exact S|]. rewrite R. exact T1.
Qed.

Lemma written_line_is_time_line_witness :
  exists out,
    srt_line half conv_init "00:00:02,000 --> 00:00:04,000"
      = Ok (WriteString conv_init (out ++ newline)) /\
    regexp.MatchString re_srt out = true /\
    is_time_line (to_period out) = true.
Proof.
  apply (written_line_is_time_line Srt half conv_init
           "00:00:02,000 --> 00:00:04,000").
  - reflexivity.
  - reflexivity.
  - vm_compute. reflexivity.
  - split; vm_compute; [discriminate | reflexivity].
Defined.
